(** * S3-personal_client: the command shell of [s3_handler.py]

    A shallow embedding of [S3Handler] (the error catalog, the two
    existence checks, the operation wrappers and [dispatch]) and of the
    whitespace normalisation done by [main], followed by the properties
    of these functions.

    Python values are modelled as follows.
    - [str] is [string]; a character is a code point below 256.
    - An exception is a value of [exn]; a call either returns or raises,
      and the side effects made before a raise persist.
    - The boto3 client is a record of transition functions over an
      abstract service state; every call made through it is appended to
      a log, so that "no backend call occurs" is a statement about the
      log.
    - The local file system is a finite map from paths to contents. *)

From Stdlib Require Import ZArith Ascii String DecimalString.
From stdpp Require Import base option list gmap strings.

Local Open Scope Z_scope.

(** ** Python built-ins used by the handler *)

Module Py.

(** [sep.join(items)] *)
Definition join (sep : string) (items : list string) : string :=
  String.concat sep items.

(** [s.split(sep)] for a one-character separator: every occurrence of
    the separator ends a field, so adjacent separators give empty
    fields and the result is never the empty list. *)
Fixpoint split_on (sep : ascii) (s : string) : list string :=
  match s with
  | EmptyString => [EmptyString]
  | String c rest =>
      if Ascii.eqb c sep then EmptyString :: split_on sep rest
      else match split_on sep rest with
           | field :: fields => String c field :: fields
           | [] => [String c EmptyString]
           end
  end.

(** The code points below 256 that [str.split()] treats as white
    space: TAB, LF, VT, FF, CR, FS, GS, RS, US, SPACE, NEL and NBSP. *)
Definition isspace (c : ascii) : bool :=
  let n := Z.of_nat (nat_of_ascii c) in
  ((9 <=? n) && (n <=? 13)) || ((28 <=? n) && (n <=? 32))
  || (n =? 133) || (n =? 160).

Section Words.
Variable space : ascii -> bool.

Definition push (word : string) (words : list string) : list string :=
  match word with
  | EmptyString => words
  | _ => word :: words
  end.

(** One right-to-left pass: the pair is the word that the current
    position is inside of (empty when it is not inside one) and the
    words that follow it. *)
Fixpoint scan (s : string) : string * list string :=
  match s with
  | EmptyString => (EmptyString, [])
  | String c rest =>
      let '(word, words) := scan rest in
      if space c then (EmptyString, push word words)
      else (String c word, words)
  end.

(** [s.split()] with white space given by [space]: runs of white
    space separate the words, and no empty word is produced. *)
Definition split_with (s : string) : list string :=
  let '(word, words) := scan s in push word words.
End Words.

(** [s.split()] *)
Definition split (s : string) : list string := split_with isspace s.

(** [str(n)] for an [int] *)
Definition str_int (n : Z) : string := NilZero.string_of_int (Z.to_int n).

(** [len(s)] *)
Definition len {A} (l : list A) : Z := Z.of_nat (length l).

(** Truth value of a string: [not s] holds exactly for [''] *)
Definition truthy (s : string) : bool :=
  match s with EmptyString => false | _ => true end.

(** [os.path.splitext(p)] on POSIX: the extension starts at the last
    dot of the last path component, unless that component has only
    leading dots before it. *)
Fixpoint rfind_from (c : ascii) (s : string) (i : Z) (found : Z) : Z :=
  match s with
  | EmptyString => found
  | String d rest => rfind_from c rest (i + 1) (if Ascii.eqb d c then i else found)
  end.

Definition rfind (c : ascii) (s : string) : Z := rfind_from c s 0 (-1).

Definition slice_to (s : string) (i : Z) : string :=
  String.substring 0 (Z.to_nat i) s.

Definition slice_from (s : string) (i : Z) : string :=
  String.substring (Z.to_nat i) (String.length s - Z.to_nat i) s.

Fixpoint all_dots (s : string) : bool :=
  match s with
  | EmptyString => true
  | String d rest => Ascii.eqb d "."%char && all_dots rest
  end.

Definition splitext (p : string) : string * string :=
  let sepIndex := rfind "/"%char p in
  let dotIndex := rfind "."%char p in
  if (sepIndex <? dotIndex)
     && negb (all_dots (String.substring (Z.to_nat (sepIndex + 1))
                          (Z.to_nat (dotIndex - (sepIndex + 1))) p))
  then (slice_to p dotIndex, slice_from p dotIndex)
  else (p, EmptyString).

End Py.

(** ** Exceptions and results *)

(** [ClientError code text] is botocore's [ClientError]: [code] is
    [e.response['Error']['Code']] and [text] is [str(e)].  The other
    constructors have no [response] attribute. *)
Inductive exn : Type :=
  | ClientError (code text : string)
  | KeyError (key : string)
  | TypeError (text : string)
  | AttributeError (text : string)
  | IndexError (text : string)
  | FileNotFoundError (path : string)
  | OtherError (text : string).

Definition exn_str (e : exn) : string :=
  match e with
  | ClientError _ text => text
  | KeyError key => "'" +:+ key +:+ "'"
  | TypeError text => text
  | AttributeError text => text
  | IndexError text => text
  | FileNotFoundError path => "[Errno 2] No such file or directory: '" +:+ path +:+ "'"
  | OtherError text => text
  end.

Inductive result (A : Type) : Type :=
  | Return (a : A)
  | Raise (e : exn).
Arguments Return {A} a.
Arguments Raise {A} e.

(** ** The error catalog *)

(** The argument of [_error_messages]: callers pass string literals,
    but the test [if issue] is defined for every Python value. *)
Inductive pykey : Type :=
  | KNone
  | KBool (b : bool)
  | KInt (n : Z)
  | KStr (s : string).

Definition key_truthy (k : pykey) : bool :=
  match k with
  | KNone => false
  | KBool b => b
  | KInt n => negb (n =? 0)
  | KStr s => Py.truthy s
  end.

Definition key_repr (k : pykey) : string :=
  match k with
  | KNone => "None"
  | KBool true => "True"
  | KBool false => "False"
  | KInt n => Py.str_int n
  | KStr s => s
  end.

Definition error_message_dict : gmap string string :=
  <["unknown_error" := "Something was not correct with the request. Try again."]>
  (<["not_authorized_bucket" := "You are not authorized to access this directory"]>
  (<["non_existent_object" := "Destination object does not exist."]>
  (<["non_existent_bucket" := "Directory does not exist."]>
  (<["missing_source_file" := "Source file cannot be found."]>
  (<["bucket_not_empty" := "Directory is not empty. Delete objects before proceeding."]>
  (<["bucket_name_empty" := "Directory name cannot be empty."]>
  (<["bucket_name_exists" := "Directory already exists."]>
  (<["not_implemented" := "Functionality not implemented yet!"]>
  (<["incorrect_parameter_number" := "Incorrect number of parameters provided"]>
   ∅))))))))).

(** [error_message_dict[k]]: every key of the dictionary is a string, so
    a key of another type is never found. *)
Definition dict_getitem (d : gmap string string) (k : pykey) : result string :=
  match k with
  | KStr s => match d !! s with
              | Some v => Return v
              | None => Raise (KeyError s)
              end
  | _ => Raise (KeyError (key_repr k))
  end.

Definition _error_messages (issue : pykey) : result string :=
  if key_truthy issue then dict_getitem error_message_dict issue
  else dict_getitem error_message_dict (KStr "unknown_error").

(** ** The storage client and the world the handler runs in *)

(** An entry of [list_buckets()['Buckets']]. *)
Record BucketEntry : Type := {
  Name : string;
  CreationDate : string
}.

(** An entry of [list_objects_v2(...)['Contents']]. *)
Record ObjectEntry : Type := {
  Key : string;
  Size : Z
}.

(** A value stored in the response dictionary of [list_objects_v2]. *)
Inductive value : Type :=
  | VStr (s : string)
  | VInt (n : Z)
  | VBool (b : bool)
  | VContents (objects : list ObjectEntry)
  | VMetadata (HTTPStatusCode : Z).

(** The calls made on the client. *)
Inductive Call : Type :=
  | HeadBucket (Bucket : string)
  | HeadObject (Bucket Key : string)
  | CreateBucket (Bucket LocationConstraint : string)
  | ListBuckets
  | ListObjectsV2 (Bucket : string)
  | UploadFile (Filename Bucket Key ContentType : string)
  | DownloadFile (Bucket Key Filename : string)
  | DeleteObject (Bucket Key : string)
  | DeleteBucket (Bucket : string).

(** The service behind [self.client].  Each operation takes the
    service state and gives a reply (a returned value or a raised
    exception) and the next state.  [head_bucket] and [head_object]
    return [response['ResponseMetadata']['HTTPStatusCode']];
    [put_object] and [get_object] are the transfers that [upload_file]
    and [download_file] perform. *)
Record Client (S3 : Type) : Type := {
  head_bucket : string -> S3 -> result Z * S3;
  head_object : string -> string -> S3 -> result Z * S3;
  create_bucket : string -> string -> S3 -> result unit * S3;
  list_buckets : S3 -> result (list BucketEntry) * S3;
  list_objects_v2 : string -> S3 -> result (gmap string value) * S3;
  put_object : string -> string -> string -> string -> S3 -> result unit * S3;
  get_object : string -> string -> S3 -> result string * S3;
  delete_object : string -> string -> S3 -> result unit * S3;
  delete_bucket : string -> S3 -> result unit * S3
}.
Arguments head_bucket {S3} _ _ _.
Arguments head_object {S3} _ _ _ _.
Arguments create_bucket {S3} _ _ _ _.
Arguments list_buckets {S3} _ _.
Arguments list_objects_v2 {S3} _ _ _.
Arguments put_object {S3} _ _ _ _ _ _.
Arguments get_object {S3} _ _ _ _.
Arguments delete_object {S3} _ _ _ _.
Arguments delete_bucket {S3} _ _ _.

(** What a run of the handler can read and change: the service, the
    local files, the clock, the log of requests and the printed lines.
    [now_ms] is the integer that [int(round(time.time() * 1000))]
    evaluates to. *)
Record World (S3 : Type) : Type := mkWorld {
  s3 : S3;
  fs : gmap string string;
  now_ms : Z;
  log : list Call;
  out : list string
}.
Arguments mkWorld {S3} _ _ _ _ _.
Arguments s3 {S3} _.
Arguments fs {S3} _.
Arguments now_ms {S3} _.
Arguments log {S3} _.
Arguments out {S3} _.

Definition REGION : string := "us-east-2".

(** ** Computations that may raise and that change the world *)

Section Effects.

Context {S3 : Type}.

Definition M (A : Type) : Type := World S3 -> result A * World S3.

Definition ret {A} (a : A) : M A := fun w => (Return a, w).

Definition raise {A} (e : exn) : M A := fun w => (Raise e, w).

Definition lift {A} (r : result A) : M A := fun w => (r, w).

Definition bind {A B} (m : M A) (k : A -> M B) : M B :=
  fun w => match m w with
           | (Return a, w') => k a w'
           | (Raise e, w') => (Raise e, w')
           end.

(** [try: m / except: on_exn / else: on_ok] *)
Definition try_else {A B} (m : M A) (on_exn : exn -> M B) (on_ok : A -> M B) : M B :=
  fun w => match m w with
           | (Return a, w') => on_ok a w'
           | (Raise e, w') => on_exn e w'
           end.

Definition try_except {A} (m : M A) (on_exn : exn -> M A) : M A :=
  try_else m on_exn ret.

Definition print (line : string) : M unit :=
  fun w => (Return tt, mkWorld (s3 w) (fs w) (now_ms w) (log w) (out w ++ [line])).

(** A call on the client: it is logged, and the service moves on. *)
Definition request {A} (c : Call) (op : S3 -> result A * S3) : M A :=
  fun w => let '(reply, s3') := op (s3 w) in
           (reply, mkWorld s3' (fs w) (now_ms w) (log w ++ [c]) (out w)).

Definition path_exists (path : string) : M bool :=
  fun w => (Return (bool_decide (is_Some (fs w !! path))), w).

Definition time_in_millis : M Z := fun w => (Return (now_ms w), w).

Definition write_file (path body : string) : M unit :=
  fun w => (Return tt, mkWorld (s3 w) (<[path := body]> (fs w)) (now_ms w) (log w) (out w)).

(** [items[i]] *)
Definition getitem (items : list string) (i : nat) : M string :=
  fun w => match items !! i with
           | Some item => (Return item, w)
           | None => (Raise (IndexError "list index out of range"), w)
           end.

End Effects.

Arguments M S3 A : clear implicits.

Notation "'let*' x ':=' m 'in' k" := (bind m (fun x => k))
  (at level 10, x name, m at level 100, k at level 200).
Notation "m ';;' k" := (bind m (fun _ => k))
  (at level 100, k at level 200, right associativity).

(** ** The handler *)

(** The methods that [dispatch] reaches through [self]. *)
Record Methods (S3 : Type) : Type := {
  m_createdir : string -> M S3 string;
  m_upload : string -> string -> string -> M S3 string;
  m_download : string -> string -> string -> M S3 string;
  m_delete : string -> string -> M S3 string;
  m_deletedir : string -> M S3 string;
  m_find : string -> string -> M S3 string;
  m_listdir : string -> M S3 string
}.
Arguments m_createdir {S3} _ _.
Arguments m_upload {S3} _ _ _ _.
Arguments m_download {S3} _ _ _ _.
Arguments m_delete {S3} _ _ _.
Arguments m_deletedir {S3} _ _.
Arguments m_find {S3} _ _ _.
Arguments m_listdir {S3} _ _.

Section Handler.

Context {S3 : Type} (client : Client S3).

(** [self.client.upload_file]: reads the local file and sends it. *)
Definition upload_file (Filename Bucket Key ContentType : string) : M S3 unit :=
  fun w => match fs w !! Filename with
           | Some body =>
               request (UploadFile Filename Bucket Key ContentType)
                       (put_object client Bucket Key body ContentType) w
           | None =>
               request (UploadFile Filename Bucket Key ContentType)
                       (fun s => (Raise (FileNotFoundError Filename), s)) w
           end.

(** [self.client.download_file]: fetches the object and, when the
    service returned it, writes it to [Filename]. *)
Definition download_file (Bucket Key Filename : string) : M S3 unit :=
  let* body := request (DownloadFile Bucket Key Filename) (get_object client Bucket Key) in
  write_file Filename body.

(** [e.response['Error']['Code']] *)
Definition response_code (e : exn) : M S3 string :=
  match e with
  | ClientError code _ => ret code
  | _ => raise (AttributeError "object has no attribute 'response'")
  end.

Definition _get (bucket_name : string) : M S3 bool :=
  try_else (request (HeadBucket bucket_name) (head_bucket client bucket_name))
    (fun e =>
       let* response_code := response_code e in
       if String.eqb response_code "404" then ret false
       else if String.eqb response_code "200" then ret true
       else raise e)
    (fun status =>
       if status =? 200 then ret true else ret false).

Definition _get_object (bucket_name object_name : string) : M S3 bool :=
  try_else (request (HeadObject bucket_name object_name)
                    (head_object client bucket_name object_name))
    (fun e =>
       let* response_code := response_code e in
       if String.eqb response_code "404" then ret false
       else if String.eqb response_code "200" then ret true
       else raise e)
    (fun status =>
       if status =? 200 then ret true else ret false).

Definition _get_file_extension (file_name : string) : M S3 (option (string * string)) :=
  let* present := path_exists file_name in
  if present then ret (Some (Py.splitext file_name)) else ret None.

Definition createdir (bucket_name : string) : M S3 string :=
  if negb (Py.truthy bucket_name) then lift (_error_messages (KStr "bucket_name_empty"))
  else
    let* returned :=
      try_except
        (let* found := _get bucket_name in
         if found then
           let* text := lift (_error_messages (KStr "bucket_name_exists")) in
           ret (Some text)
         else
           request (CreateBucket bucket_name REGION)
                   (create_bucket client bucket_name REGION) ;;
           ret None)
        (fun e => print (exn_str e) ;; raise e) in
    match returned with
    | Some text => ret text
    | None => ret ("Directory " +:+ bucket_name +:+ " created.")
    end.

(** [', '.join(result)]: every item has to be a [str]. *)
Fixpoint str_items (items : list value) : result (list string) :=
  match items with
  | [] => Return []
  | VStr s :: rest =>
      match str_items rest with
      | Return strs => Return (s :: strs)
      | Raise e => Raise e
      end
  | _ :: _ => Raise (TypeError "sequence item: expected str instance")
  end.

Definition join_items (sep : string) (items : list value) : M S3 string :=
  match str_items items with
  | Return strs => ret (Py.join sep strs)
  | Raise e => raise e
  end.

(** [object_list[key]] *)
Definition dict_get (d : gmap string value) (key : string) : M S3 value :=
  match d !! key with
  | Some v => ret v
  | None => raise (KeyError key)
  end.

(** [for x in xs: result.append(f(x))] *)
Fixpoint for_append {X} (xs : list X) (f : X -> M S3 value) (result : list value)
  : M S3 (list value) :=
  match xs with
  | [] => ret result
  | x :: rest =>
      let* item := f x in
      for_append rest f (result ++ [item])
  end.

Definition listdir (bucket_name : string) : M S3 string :=
  let result := [] in
  if negb (Py.truthy bucket_name) then
    let* buckets := request ListBuckets (list_buckets client) in
    print "Avaliable buckets list:" ;;
    let* result := for_append buckets (fun bucket => ret (VStr (Name bucket))) result in
    join_items ", " result
  else
    let* found := _get bucket_name in
    if negb found then lift (_error_messages (KStr "non_existent_bucket"))
    else
      let* object_list := request (ListObjectsV2 bucket_name)
                                  (list_objects_v2 client bucket_name) in
      print ("Available objects in directory " +:+ bucket_name +:+ ":") ;;
      let* result := for_append (map fst (map_to_list object_list))
                                (fun obj => dict_get object_list "Name") result in
      join_items ", " result.

Definition upload (source_file_name bucket_name dest_object_name : string) : M S3 string :=
  let* present := path_exists source_file_name in
  if negb present then lift (_error_messages (KStr "missing_source_file"))
  else
    let* found := _get bucket_name in
    if negb found then lift (_error_messages (KStr "non_existent_bucket"))
    else
      let dest_object_name :=
        if String.eqb dest_object_name "" then source_file_name else dest_object_name in
      let* file_extension := _get_file_extension source_file_name in
      let* content_type :=
        match file_extension with
        | Some ext => ret (snd ext)
        | None => raise (TypeError "'NoneType' object is not subscriptable")
        end in
      let* action := upload_file source_file_name bucket_name dest_object_name content_type in
      try_else (ret action)
        (fun e => ret ("Failed to upload " +:+ source_file_name +:+ " to "
                       +:+ Py.join "/" [bucket_name; dest_object_name]
                       +:+ ": " +:+ exn_str e))
        (fun _ => ret ("File " +:+ source_file_name +:+ " uploaded to bucket "
                       +:+ bucket_name +:+ ".")).

Definition download (dest_object_name bucket_name source_file_name : string) : M S3 string :=
  let* found := _get bucket_name in
  if negb found then lift (_error_messages (KStr "non_existent_bucket"))
  else
    let* found := _get_object bucket_name dest_object_name in
    if negb found then lift (_error_messages (KStr "non_existent_object"))
    else
      let source_file_name :=
        if String.eqb source_file_name "" then dest_object_name else source_file_name in
      let* present := path_exists source_file_name in
      let* source_file_name :=
        if present then
          let* time_in_millis := time_in_millis in
          ret (source_file_name +:+ ".bak." +:+ Py.str_int time_in_millis)
        else ret source_file_name in
      let* action := download_file bucket_name dest_object_name source_file_name in
      try_else (ret action)
        (fun e => ret ("Failed to download " +:+ dest_object_name +:+ " to "
                       +:+ Py.join "/" [bucket_name; source_file_name]
                       +:+ ": " +:+ exn_str e))
        (fun _ => ret ("Object " +:+ dest_object_name +:+ " downloaded from bucket "
                       +:+ bucket_name +:+ ".")).

Definition delete (dest_object_name bucket_name : string) : M S3 string :=
  let* found := _get bucket_name in
  if negb found then lift (_error_messages (KStr "non_existent_bucket"))
  else
    let* found := _get_object bucket_name dest_object_name in
    if negb found then lift (_error_messages (KStr "non_existent_object"))
    else
      let* action := request (DeleteObject bucket_name dest_object_name)
                             (delete_object client bucket_name dest_object_name) in
      try_else (ret action)
        (fun e => ret ("Failed to delete " +:+ dest_object_name +:+ " from directory "
                       +:+ bucket_name +:+ ": " +:+ exn_str e))
        (fun _ => ret ("Object " +:+ dest_object_name +:+ " deleted from bucket "
                       +:+ bucket_name +:+ ".")).

Definition deletedir (bucket_name : string) : M S3 string :=
  let* found := _get bucket_name in
  if negb found then lift (_error_messages (KStr "non_existent_bucket"))
  else
    try_else (request (DeleteBucket bucket_name) (delete_bucket client bucket_name))
      (fun e =>
         match e with
         | ClientError code _ =>
             if String.eqb code "BucketNotEmpty"
             then lift (_error_messages (KStr "bucket_not_empty"))
             else ret ("Failed to delete bucket " +:+ bucket_name +:+ ": " +:+ exn_str e)
         | _ => raise e
         end)
      (fun _ => ret ("Deleted bucket " +:+ bucket_name +:+ ".")).

Definition find (file_extension bucket_name : string) : M S3 string :=
  lift (_error_messages (KStr "not_implemented")).

(** [dispatch], with the methods it calls on [self] as a parameter. *)
Definition dispatch_with (self : Methods S3) (command_string : string) : M S3 string :=
  let parts := Py.split_on " "%char command_string in
  let* command := getitem parts 0 in
  if String.eqb command "createdir" then
    if 1 <? Py.len parts then
      let* bucket_name := getitem parts 1 in
      m_createdir self bucket_name
    else lift (_error_messages (KStr "bucket_name_empty"))
  else if String.eqb command "upload" then
    if Py.len parts <? 3 then lift (_error_messages (KStr "incorrect_parameter_number"))
    else
      let* source_file_name := getitem parts 1 in
      let* bucket_name := getitem parts 2 in
      let* dest_object_name := if 3 <? Py.len parts then getitem parts 3 else ret "" in
      m_upload self source_file_name bucket_name dest_object_name
  else if String.eqb command "download" then
    if Py.len parts <? 3 then lift (_error_messages (KStr "incorrect_parameter_number"))
    else
      let* dest_object_name := getitem parts 1 in
      let* bucket_name := getitem parts 2 in
      let* source_file_name := if 3 <? Py.len parts then getitem parts 3 else ret "" in
      m_download self dest_object_name bucket_name source_file_name
  else if String.eqb command "delete" then
    if Py.len parts <? 3 then lift (_error_messages (KStr "incorrect_parameter_number"))
    else
      let* dest_object_name := getitem parts 1 in
      let* bucket_name := getitem parts 2 in
      m_delete self dest_object_name bucket_name
  else if String.eqb command "deletedir" then
    if Py.len parts <? 2 then lift (_error_messages (KStr "incorrect_parameter_number"))
    else
      let* bucket_name := getitem parts 1 in
      m_deletedir self bucket_name
  else if String.eqb command "find" then
    let file_extension := "" in
    let bucket_name := "" in
    m_find self file_extension bucket_name
  else if String.eqb command "listdir" then
    let* bucket_name := if 1 <? Py.len parts then getitem parts 1 else ret "" in
    m_listdir self bucket_name
  else ret "Command not recognized.".

Definition S3Handler : Methods S3 := {|
  m_createdir := createdir;
  m_upload := upload;
  m_download := download;
  m_delete := delete;
  m_deletedir := deletedir;
  m_find := find;
  m_listdir := listdir
|}.

Definition dispatch (command_string : string) : M S3 string :=
  dispatch_with S3Handler command_string.

(** *** One round of the loop of [main] *)

(** The line as [main] hands it to [dispatch]. *)
Definition normalize (line : string) : string := Py.join " " (Py.split line).

(** The tokens [dispatch] works on for an input line. *)
Definition tokens (line : string) : list string :=
  Py.split_on " "%char (normalize line).

Definition help : M S3 unit :=
  print "Supported Commands:" ;;
  print "1. createdir <bucket_name>" ;;
  print "2. upload <source_file_name> <bucket_name> [<dest_object_name>]" ;;
  print "3. download <dest_object_name> <bucket_name> [<source_file_name>]" ;;
  print "4. delete <dest_object_name> <bucket_name>" ;;
  print "5. deletedir <bucket_name>" ;;
  print "6. find <file_extension> [<bucket_name>] -- e.g.: 1. find txt  2. find txt bucket1 --" ;;
  print "7. listdir [<bucket_name>]".

(** [true] when the loop goes on, [false] after [exit()]. *)
Definition main_round (line : string) : World S3 -> bool * World S3 :=
  fun w =>
    let command_string := normalize line in
    if String.eqb command_string "exit" then
      (false, snd (print "Goodbye!" w))
    else
      (true,
       snd (try_except
              (if String.eqb command_string "help" then help
               else let* response := dispatch command_string in print response)
              (fun e => print (exn_str e)) w)).

End Handler.

(** ** Two concrete services, to run the handler on *)

(** A service that answers every existence check with the same reply
    and refuses everything else. *)
Definition fixed_reply_client (head : result Z) : Client unit := {|
  head_bucket := fun _ s => (head, s);
  head_object := fun _ _ s => (head, s);
  create_bucket := fun _ _ s => (Raise (ClientError "AccessDenied" "Access Denied"), s);
  list_buckets := fun s => (Raise (ClientError "AccessDenied" "Access Denied"), s);
  list_objects_v2 := fun _ s => (Raise (ClientError "AccessDenied" "Access Denied"), s);
  put_object := fun _ _ _ _ s => (Raise (ClientError "AccessDenied" "Access Denied"), s);
  get_object := fun _ _ s => (Raise (ClientError "AccessDenied" "Access Denied"), s);
  delete_object := fun _ _ s => (Raise (ClientError "AccessDenied" "Access Denied"), s);
  delete_bucket := fun _ s => (Raise (ClientError "AccessDenied" "Access Denied"), s)
|}.

(** A service in which every bucket exists and every listing of
    objects is the same response. *)
Definition fixed_listing_client (object_list : gmap string value) : Client unit := {|
  head_bucket := fun _ s => (Return 200, s);
  head_object := fun _ _ s => (Return 200, s);
  create_bucket := fun _ _ s => (Raise (ClientError "AccessDenied" "Access Denied"), s);
  list_buckets := fun s => (Raise (ClientError "AccessDenied" "Access Denied"), s);
  list_objects_v2 := fun _ s => (Return object_list, s);
  put_object := fun _ _ _ _ s => (Raise (ClientError "AccessDenied" "Access Denied"), s);
  get_object := fun _ _ s => (Raise (ClientError "AccessDenied" "Access Denied"), s);
  delete_object := fun _ _ s => (Raise (ClientError "AccessDenied" "Access Denied"), s);
  delete_bucket := fun _ s => (Raise (OtherError "Could not connect to the endpoint URL"), s)
|}.

Module MemoryS3.

(** Buckets of objects held in memory; a read-only store refuses
    writes the way a bucket policy does. *)
Record Store : Type := {
  buckets : gmap string (gmap string string);
  read_only : bool
}.

Definition not_found (operation : string) : exn :=
  ClientError "404" ("An error occurred (404) when calling the " +:+ operation
                     +:+ " operation: Not Found").

Definition denied (operation : string) : exn :=
  ClientError "AccessDenied" ("An error occurred (AccessDenied) when calling the "
                              +:+ operation +:+ " operation: Access Denied").

Definition no_such_bucket (operation : string) : exn :=
  ClientError "NoSuchBucket" ("An error occurred (NoSuchBucket) when calling the "
                              +:+ operation +:+ " operation: The specified bucket does not exist").

Definition not_empty : exn :=
  ClientError "BucketNotEmpty"
    "An error occurred (BucketNotEmpty) when calling the DeleteBucket operation: The bucket you tried to delete is not empty".

Definition set_buckets (st : Store) (bs : gmap string (gmap string string)) : Store :=
  {| buckets := bs; read_only := read_only st |}.

Definition listing (bucket : string) (objects : gmap string string) : gmap string value :=
  <["KeyCount" := VInt (Z.of_nat (size objects))]>
  (<["EncodingType" := VStr "url"]>
  (<["MaxKeys" := VInt 1000]>
  (<["Prefix" := VStr ""]>
  (<["Name" := VStr bucket]>
  (<["IsTruncated" := VBool false]>
  (<["ResponseMetadata" := VMetadata 200]>
  (<["Contents" := VContents (map (fun kv => {| Key := fst kv;
                                                 Size := Z.of_nat (String.length (snd kv)) |})
                                  (map_to_list objects))]>
   ∅))))))).

Definition client : Client Store := {|
  head_bucket := fun b st =>
    match buckets st !! b with
    | Some _ => (Return 200, st)
    | None => (Raise (not_found "HeadBucket"), st)
    end;
  head_object := fun b k st =>
    match buckets st !! b ≫= (fun objects => objects !! k) with
    | Some _ => (Return 200, st)
    | None => (Raise (not_found "HeadObject"), st)
    end;
  create_bucket := fun b _ st =>
    if read_only st then (Raise (denied "CreateBucket"), st)
    else match buckets st !! b with
         | Some _ => (Raise (ClientError "BucketAlreadyOwnedByYou" "Bucket exists"), st)
         | None => (Return tt, set_buckets st (<[b := ∅]> (buckets st)))
         end;
  list_buckets := fun st =>
    (Return (map (fun kv => {| Name := fst kv; CreationDate := "" |})
                 (map_to_list (buckets st))), st);
  list_objects_v2 := fun b st =>
    match buckets st !! b with
    | Some objects => (Return (listing b objects), st)
    | None => (Raise (no_such_bucket "ListObjectsV2"), st)
    end;
  put_object := fun b k body _ st =>
    if read_only st then (Raise (denied "PutObject"), st)
    else match buckets st !! b with
         | Some objects => (Return tt, set_buckets st (<[b := <[k := body]> objects]> (buckets st)))
         | None => (Raise (no_such_bucket "PutObject"), st)
         end;
  get_object := fun b k st =>
    match buckets st !! b ≫= (fun objects => objects !! k) with
    | Some body => (Return body, st)
    | None => (Raise (not_found "GetObject"), st)
    end;
  delete_object := fun b k st =>
    if read_only st then (Raise (denied "DeleteObject"), st)
    else match buckets st !! b with
         | Some objects => (Return tt, set_buckets st (<[b := base.delete k objects]> (buckets st)))
         | None => (Raise (no_such_bucket "DeleteObject"), st)
         end;
  delete_bucket := fun b st =>
    if read_only st then (Raise (denied "DeleteBucket"), st)
    else match buckets st !! b with
         | Some objects =>
             if bool_decide (objects = ∅) then (Return tt, set_buckets st (base.delete b (buckets st)))
             else (Raise not_empty, st)
         | None => (Raise (no_such_bucket "DeleteBucket"), st)
         end
|}.

(** One bucket, [photos], with two objects; one local file. *)
Definition photos : gmap string string :=
  <["a.jpg" := "AAAA"]> (<["b.jpg" := "BB"]> ∅).

Definition store (ro : bool) : Store :=
  {| buckets := <["photos" := photos]> ∅; read_only := ro |}.

Definition world (ro : bool) : World Store :=
  mkWorld (store ro) (<["a.jpg" := "local"]> ∅) 1730000000123 [] [].

End MemoryS3.

Definition blank_world : World unit := mkWorld tt ∅ 0 [] [].

(** ** The contract of the existence checks *)

(** What [_get] and [_get_object] do with the reply of the service,
    read off their two branches: the reply of a call that returned is
    compared with 200; the code of a [ClientError] is compared with
    ['404'] and ['200'] and the error is raised again for any other
    code; an exception that carries no [response] fails inside the
    handler. *)
Definition existence_contract (reply : result Z) (outcome : result bool) : Prop :=
  (reply = Return 200 -> outcome = Return true)
  /\ (forall status, reply = Return status -> status <> 200 -> outcome = Return false)
  /\ (forall text, reply = Raise (ClientError "404" text) -> outcome = Return false)
  /\ (forall text, reply = Raise (ClientError "200" text) -> outcome = Return true)
  /\ (forall code text,
         reply = Raise (ClientError code text) -> code <> "404" -> code <> "200" ->
         outcome = Raise (ClientError code text))
  /\ (forall e,
         reply = Raise e -> (forall code text, e <> ClientError code text) ->
         exists e', outcome = Raise e').

(** The contract in the words of the specification: true on status
    200, false on "not found", and an exception for every other status
    or error code. *)
Definition existence_contract_as_stated (reply : result Z) (outcome : result bool) : Prop :=
  (reply = Return 200 -> outcome = Return true)
  /\ (forall text, reply = Raise (ClientError "404" text) -> outcome = Return false)
  /\ (reply <> Return 200 ->
      (forall text, reply <> Raise (ClientError "404" text)) ->
      exists e, outcome = Raise e).

(** The keys of the objects listed in a response of
    [list_objects_v2]. *)
Definition listed_keys (object_list : gmap string value) : list string :=
  match object_list !! "Contents" with
  | Some (VContents objects) => map Key objects
  | _ => []
  end.

(** Whether every character of a string satisfies a test. *)
Fixpoint all_chars (p : ascii -> bool) (s : string) : bool :=
  match s with
  | EmptyString => true
  | String c rest => p c && all_chars p rest
  end.

(** A word with respect to a test for white space: not empty, and free
    of white space. *)
Definition word (space : ascii -> bool) (t : string) : Prop :=
  t <> EmptyString /\ all_chars (fun c => negb (space c)) t = true.


(** * Properties *)

(** ** The error catalog *)

Lemma falsy_key_unknown_error (issue : pykey) :
  key_truthy issue = false ->
  _error_messages issue
  = Return "Something was not correct with the request. Try again.".
Proof.
  intros Hfalsy. unfold _error_messages. rewrite Hfalsy. reflexivity.
Qed.

Lemma recognized_key_sentence (key text : string) :
  error_message_dict !! key = Some text ->
  _error_messages (KStr key) = Return text.
Proof.
  intros Hkey. destruct key as [|c key].
  - discriminate Hkey.
  - unfold _error_messages. simpl. rewrite Hkey. reflexivity.
Qed.

(** C10: [_error_messages] answers every falsy key, the empty string
    among them, with the [unknown_error] sentence instead of failing,
    and answers each key of the catalog with the sentence stored under
    that key; the ten keys and their sentences are listed. *)
Theorem error_messages_lookup :
  (forall issue : pykey,
      key_truthy issue = false ->
      _error_messages issue
      = Return "Something was not correct with the request. Try again.")
  /\ _error_messages (KStr "")
     = Return "Something was not correct with the request. Try again."
  /\ (forall key text : string,
         error_message_dict !! key = Some text ->
         _error_messages (KStr key) = Return text)
  /\ Forall (fun entry => _error_messages (KStr (fst entry)) = Return (snd entry))
     [ ("incorrect_parameter_number", "Incorrect number of parameters provided");
       ("not_implemented", "Functionality not implemented yet!");
       ("bucket_name_exists", "Directory already exists.");
       ("bucket_name_empty", "Directory name cannot be empty.");
       ("bucket_not_empty", "Directory is not empty. Delete objects before proceeding.");
       ("missing_source_file", "Source file cannot be found.");
       ("non_existent_bucket", "Directory does not exist.");
       ("non_existent_object", "Destination object does not exist.");
       ("not_authorized_bucket", "You are not authorized to access this directory");
       ("unknown_error", "Something was not correct with the request. Try again.") ].
Proof.
  split; [exact falsy_key_unknown_error|].
  split; [reflexivity|].
  split; [exact recognized_key_sentence|].
  repeat (constructor; [reflexivity|]). constructor.
Qed.

(** The catalog lookup at [None], a falsy key that is not a string. *)
Lemma error_messages_lookup_witness :
  _error_messages KNone
  = Return "Something was not correct with the request. Try again.".
Proof.
  apply (proj1 error_messages_lookup KNone). reflexivity.
Defined.

(** ** Argument checks of [upload] and [dispatch] *)

Section Dispatch.

Context {S3 : Type} (client : Client S3).

(** C7: when no local file exists at [source_file_name], [upload]
    returns the [missing_source_file] sentence and leaves the world as
    it was; the log of requests is part of the world, so neither the
    bucket check nor the upload reaches the service. *)
Theorem upload_missing_source_file
    (source_file_name bucket_name dest_object_name : string) (w : World S3) :
  fs w !! source_file_name = None ->
  upload client source_file_name bucket_name dest_object_name w
  = (Return "Source file cannot be found.", w)
  /\ _error_messages (KStr "missing_source_file") = Return "Source file cannot be found."
  /\ log (snd (upload client source_file_name bucket_name dest_object_name w)) = log w.
Proof.
  intros Hmissing.
  assert (Hrun : upload client source_file_name bucket_name dest_object_name w
                 = (Return "Source file cannot be found.", w)).
  { unfold upload, bind, path_exists. rewrite Hmissing. reflexivity. }
  rewrite Hrun. auto.
Qed.

Lemma first_token_cases (command_string command : string) :
  Py.split_on " "%char command_string !! 0%nat = Some command ->
  exists args, Py.split_on " "%char command_string = command :: args.
Proof.
  destruct (Py.split_on " "%char command_string) as [|c args]; simpl.
  - discriminate.
  - intros [= ->]. eauto.
Qed.

(** C8: whatever follows the token [find], [dispatch] calls the [find]
    method with both arguments equal to the empty string, and with the
    handler's own [find] the answer is the [not_implemented] sentence,
    the world unchanged. *)
Theorem dispatch_find (self : Methods S3) (command_string : string) (w : World S3) :
  Py.split_on " "%char command_string !! 0%nat = Some "find" ->
  dispatch_with self command_string w = m_find self "" "" w
  /\ dispatch client command_string w = (Return "Functionality not implemented yet!", w)
  /\ _error_messages (KStr "not_implemented") = Return "Functionality not implemented yet!".
Proof.
  intros Hfirst. destruct (first_token_cases _ _ Hfirst) as [args Hparts].
  unfold dispatch, dispatch_with. rewrite Hparts.
  repeat split; reflexivity.
Qed.

(** C5: with [parts] the tokens of the command string and
    [length parts - 1] the number of arguments supplied:
    [upload], [download] and [delete] with fewer than two arguments and
    [deletedir] with none return the [incorrect_parameter_number]
    sentence; [createdir] with none returns the [bucket_name_empty]
    sentence; in each of these cases no method is called and the world
    is unchanged.  [find] and [listdir] have no such check: [find]
    answers with its own [not_implemented] sentence, and [listdir] is
    run, on the first argument or on the empty string when there is
    none, and its result is what [dispatch] returns. *)
Theorem dispatch_too_few_arguments (command_string command : string) (w : World S3) :
  let parts := Py.split_on " "%char command_string in
  parts !! 0%nat = Some command ->
  (command = "upload" \/ command = "download" \/ command = "delete" ->
   (length parts - 1 < 2)%nat ->
   dispatch client command_string w
   = (Return "Incorrect number of parameters provided", w))
  /\ (command = "deletedir" ->
      (length parts - 1 < 1)%nat ->
      dispatch client command_string w
      = (Return "Incorrect number of parameters provided", w))
  /\ (command = "createdir" ->
      (length parts - 1 = 0)%nat ->
      dispatch client command_string w
      = (Return "Directory name cannot be empty.", w))
  /\ (command = "find" ->
      dispatch client command_string w
      = (Return "Functionality not implemented yet!", w))
  /\ (command = "listdir" ->
      dispatch client command_string w
      = listdir client (default "" (parts !! 1%nat)) w).
Proof.
  intros parts Hfirst. destruct (first_token_cases _ _ Hfirst) as [args Hparts].
  unfold dispatch, dispatch_with. fold parts. subst parts. rewrite Hparts.
  repeat split.
  - intros [-> | [-> | ->]] Hfew;
      destruct args as [|a [|b args]]; simpl in Hfew; try lia; reflexivity.
  - intros -> Hfew. destruct args as [|a args]; simpl in Hfew; try lia; reflexivity.
  - intros -> Hfew. destruct args as [|a args]; simpl in Hfew; try lia; reflexivity.
  - intros ->. reflexivity.
  - intros ->. destruct args as [|a args]; [reflexivity|].
    assert (Hlen : (1 <? Py.len ("listdir" :: a :: args)) = true).
    { apply Z.ltb_lt. unfold Py.len. simpl length. lia. }
    unfold bind at 1. cbn -[Py.len]. unfold bind at 1. rewrite Hlen. reflexivity.
Qed.

End Dispatch.

(** [upload missing.txt photos] on the in-memory service. *)
Lemma upload_missing_source_file_witness :
  fs (MemoryS3.world false) !! "missing.txt" = None
  /\ upload MemoryS3.client "missing.txt" "photos" "" (MemoryS3.world false)
     = (Return "Source file cannot be found.", MemoryS3.world false).
Proof.
  assert (Hmissing : fs (MemoryS3.world false) !! "missing.txt" = None)
    by (vm_compute; reflexivity).
  split; [exact Hmissing|].
  exact (proj1 (upload_missing_source_file MemoryS3.client "missing.txt" "photos" ""
                  (MemoryS3.world false) Hmissing)).
Defined.

(** [find txt photos] on the in-memory service. *)
Lemma dispatch_find_witness :
  Py.split_on " "%char "find txt photos" !! 0%nat = Some "find"
  /\ dispatch MemoryS3.client "find txt photos" (MemoryS3.world false)
     = (Return "Functionality not implemented yet!", MemoryS3.world false).
Proof.
  assert (Hfirst : Py.split_on " "%char "find txt photos" !! 0%nat = Some "find")
    by reflexivity.
  split; [exact Hfirst|].
  exact (proj1 (proj2 (dispatch_find MemoryS3.client (S3Handler MemoryS3.client)
                         "find txt photos" (MemoryS3.world false) Hfirst))).
Defined.

(** [upload a.jpg], one argument short, on the in-memory service. *)
Lemma dispatch_too_few_arguments_witness :
  Py.split_on " "%char "upload a.jpg" !! 0%nat = Some "upload"
  /\ (length (Py.split_on " "%char "upload a.jpg") - 1 < 2)%nat
  /\ dispatch MemoryS3.client "upload a.jpg" (MemoryS3.world false)
     = (Return "Incorrect number of parameters provided", MemoryS3.world false).
Proof.
  assert (Hfirst : Py.split_on " "%char "upload a.jpg" !! 0%nat = Some "upload")
    by reflexivity.
  assert (Hfew : (length (Py.split_on " "%char "upload a.jpg") - 1 < 2)%nat)
    by (simpl; lia).
  split; [exact Hfirst|]. split; [exact Hfew|].
  exact (proj1 (dispatch_too_few_arguments MemoryS3.client "upload a.jpg" "upload"
                  (MemoryS3.world false) Hfirst)
               (or_introl eq_refl) Hfew).
Defined.

(** ** The existence checks *)

Section ExistenceChecks.

Context {S3 : Type} (client : Client S3).

Lemma check_outcome_contract (reply : result Z) (w : World S3) :
  existence_contract reply
    (fst (try_else (lift reply)
            (fun e =>
               let* response_code := response_code e in
               if String.eqb response_code "404" then ret false
               else if String.eqb response_code "200" then ret true
               else raise e)
            (fun status => if status =? 200 then ret true else ret false) w)).
Proof.
  unfold existence_contract, try_else, lift.
  repeat split.
  - intros ->. reflexivity.
  - intros status -> Hstatus. simpl.
    destruct (Z.eqb_spec status 200); [contradiction|reflexivity].
  - intros text ->. reflexivity.
  - intros text ->. reflexivity.
  - intros code text -> H404 H200. simpl. unfold bind, response_code, ret.
    destruct (String.eqb_spec code "404"); [contradiction|].
    destruct (String.eqb_spec code "200"); [contradiction|]. reflexivity.
  - intros e -> Hother. destruct e; simpl;
      try (eexists; reflexivity).
    exfalso. eapply Hother. reflexivity.
Qed.

Lemma _get_unfold (bucket_name : string) (w : World S3) :
  forall reply s3',
    head_bucket client bucket_name (s3 w) = (reply, s3') ->
    _get client bucket_name w
    = try_else (lift reply)
        (fun e =>
           let* response_code := response_code e in
           if String.eqb response_code "404" then ret false
           else if String.eqb response_code "200" then ret true
           else raise e)
        (fun status => if status =? 200 then ret true else ret false)
        (mkWorld s3' (fs w) (now_ms w) (log w ++ [HeadBucket bucket_name]) (out w)).
Proof.
  intros reply s3' Hreply. unfold _get, try_else, request, lift.
  rewrite Hreply. reflexivity.
Qed.

Lemma _get_object_unfold (bucket_name object_name : string) (w : World S3) :
  forall reply s3',
    head_object client bucket_name object_name (s3 w) = (reply, s3') ->
    _get_object client bucket_name object_name w
    = try_else (lift reply)
        (fun e =>
           let* response_code := response_code e in
           if String.eqb response_code "404" then ret false
           else if String.eqb response_code "200" then ret true
           else raise e)
        (fun status => if status =? 200 then ret true else ret false)
        (mkWorld s3' (fs w) (now_ms w)
                 (log w ++ [HeadObject bucket_name object_name]) (out w)).
Proof.
  intros reply s3' Hreply. unfold _get_object, try_else, request, lift.
  rewrite Hreply. reflexivity.
Qed.

(** An existence check makes one request and touches nothing else. *)
Lemma check_frame (reply : result Z) (w : World S3) :
  snd (try_else (lift reply)
         (fun e =>
            let* response_code := response_code e in
            if String.eqb response_code "404" then ret false
            else if String.eqb response_code "200" then ret true
            else raise e)
         (fun status => if status =? 200 then ret true else ret false) w) = w.
Proof.
  unfold try_else, lift. destruct reply as [status|e]; simpl.
  - destruct (status =? 200); reflexivity.
  - destruct e; try reflexivity. unfold bind, response_code, ret.
    destruct (String.eqb code "404"); [reflexivity|].
    destruct (String.eqb code "200"); reflexivity.
Qed.

Lemma _get_world (bucket_name : string) (w : World S3) :
  snd (_get client bucket_name w)
  = mkWorld (snd (head_bucket client bucket_name (s3 w))) (fs w) (now_ms w)
            (log w ++ [HeadBucket bucket_name]) (out w).
Proof.
  destruct (head_bucket client bucket_name (s3 w)) as [reply s3'] eqn:Hreply.
  rewrite (_get_unfold _ _ _ _ Hreply). apply check_frame.
Qed.

Lemma _get_object_world (bucket_name object_name : string) (w : World S3) :
  snd (_get_object client bucket_name object_name w)
  = mkWorld (snd (head_object client bucket_name object_name (s3 w))) (fs w) (now_ms w)
            (log w ++ [HeadObject bucket_name object_name]) (out w).
Proof.
  destruct (head_object client bucket_name object_name (s3 w)) as [reply s3'] eqn:Hreply.
  rewrite (_get_object_unfold _ _ _ _ _ Hreply). apply check_frame.
Qed.

(** C2, as the code has it: [_get] returns true when the service
    replies with status 200 and also when it raises an error whose code
    is ['200']; it returns false when the error code is ['404'] and
    also when a reply that is not an error carries a status other than
    200; it raises for every other error.  [_get_object] treats the
    reply to its request in the same way. *)
Theorem existence_checks_contract :
  (forall (bucket_name : string) (w : World S3),
      existence_contract (fst (head_bucket client bucket_name (s3 w)))
                         (fst (_get client bucket_name w)))
  /\ (forall (bucket_name object_name : string) (w : World S3),
         existence_contract (fst (head_object client bucket_name object_name (s3 w)))
                            (fst (_get_object client bucket_name object_name w))).
Proof.
  split.
  - intros bucket_name w.
    destruct (head_bucket client bucket_name (s3 w)) as [reply s3'] eqn:Hreply.
    rewrite (_get_unfold _ _ _ _ Hreply). apply check_outcome_contract.
  - intros bucket_name object_name w.
    destruct (head_object client bucket_name object_name (s3 w)) as [reply s3'] eqn:Hreply.
    rewrite (_get_object_unfold _ _ _ _ _ Hreply). apply check_outcome_contract.
Qed.

End ExistenceChecks.

(** A reply with status 204 is neither the success status nor an
    error, and [_get] answers false instead of raising: the contract
    as stated does not hold of the code. *)
Lemma existence_check_status_204 :
  ~ existence_contract_as_stated
      (fst (head_bucket (fixed_reply_client (Return 204)) "photos" (s3 blank_world)))
      (fst (_get (fixed_reply_client (Return 204)) "photos" blank_world)).
Proof.
  intros (_ & _ & Hraise).
  destruct Hraise as [e He]; [discriminate | discriminate | discriminate He].
Qed.

(** The contract at a service that refuses access: the error is raised
    again. *)
Lemma existence_checks_contract_witness :
  fst (_get (fixed_reply_client (Raise (ClientError "403" "Forbidden"))) "photos" blank_world)
  = Raise (ClientError "403" "Forbidden").
Proof.
  pose proof (proj1 (existence_checks_contract
                       (fixed_reply_client (Raise (ClientError "403" "Forbidden"))))
                    "photos" blank_world) as Hcontract.
  destruct Hcontract as (_ & _ & _ & _ & Hother & _).
  apply Hother; [reflexivity | discriminate | discriminate].
Defined.

(** ** [deletedir] and [download] *)

Lemma append_longer (s t : string) : t <> EmptyString -> s +:+ t <> s.
Proof.
  intros Ht. induction s as [|c s IH]; simpl.
  - exact Ht.
  - intros [= Heq]. exact (IH Heq).
Qed.

Section Operations.

Context {S3 : Type} (client : Client S3).

Lemma _get_run (bucket_name : string) (w : World S3) (found : result bool) :
  fst (_get client bucket_name w) = found ->
  _get client bucket_name w
  = (found, mkWorld (snd (head_bucket client bucket_name (s3 w))) (fs w) (now_ms w)
                    (log w ++ [HeadBucket bucket_name]) (out w)).
Proof.
  intros <-. rewrite <- _get_world. apply surjective_pairing.
Qed.

Lemma _get_object_run (bucket_name object_name : string) (w : World S3) (found : result bool) :
  fst (_get_object client bucket_name object_name w) = found ->
  _get_object client bucket_name object_name w
  = (found, mkWorld (snd (head_object client bucket_name object_name (s3 w))) (fs w)
                    (now_ms w) (log w ++ [HeadObject bucket_name object_name]) (out w)).
Proof.
  intros <-. rewrite <- _get_object_world. apply surjective_pairing.
Qed.

(** C6: when the bucket exists and the service refuses to delete it
    with the code [BucketNotEmpty], [deletedir] returns the
    [bucket_not_empty] sentence; the requests made are the existence
    check and the refused deletion and nothing after them, the service
    is left in the state in which the refusal left it, and the local
    files are untouched. *)
Theorem deletedir_bucket_not_empty
    (bucket_name text : string) (w : World S3) (s3' : S3) :
  fst (_get client bucket_name w) = Return true ->
  delete_bucket client bucket_name (snd (head_bucket client bucket_name (s3 w)))
  = (Raise (ClientError "BucketNotEmpty" text), s3') ->
  deletedir client bucket_name w
  = (Return "Directory is not empty. Delete objects before proceeding.",
     mkWorld s3' (fs w) (now_ms w)
             (log w ++ [HeadBucket bucket_name; DeleteBucket bucket_name]) (out w))
  /\ _error_messages (KStr "bucket_not_empty")
     = Return "Directory is not empty. Delete objects before proceeding.".
Proof.
  intros Hfound Hrefused. split; [|reflexivity].
  unfold deletedir, bind. rewrite (_get_run _ _ _ Hfound). simpl.
  unfold try_else, request. simpl. rewrite Hrefused. simpl.
  rewrite <- app_assoc. reflexivity.
Qed.

(** C4: when the bucket and the object exist and a local file is
    already at the path the download is meant for, the download request
    is made with that path followed by [.bak.] and the clock reading in
    milliseconds as its target; this target differs from the path, the
    file at the path keeps its content, and when the service returns
    the object, its content is stored at the target and [download]
    reports success. *)
Theorem download_keeps_existing_file
    (dest_object_name bucket_name source_file_name old : string) (w : World S3) :
  let path := if String.eqb source_file_name "" then dest_object_name
              else source_file_name in
  let target := path +:+ ".bak." +:+ Py.str_int (now_ms w) in
  let checked := snd (head_object client bucket_name dest_object_name
                        (snd (head_bucket client bucket_name (s3 w)))) in
  let w' := snd (download client dest_object_name bucket_name source_file_name w) in
  fst (_get client bucket_name w) = Return true ->
  fst (_get_object client bucket_name dest_object_name (snd (_get client bucket_name w)))
  = Return true ->
  fs w !! path = Some old ->
  log w' = log w ++ [HeadBucket bucket_name;
                     HeadObject bucket_name dest_object_name;
                     DownloadFile bucket_name dest_object_name target]
  /\ target <> path
  /\ fs w' !! path = Some old
  /\ (forall body s3',
         get_object client bucket_name dest_object_name checked = (Return body, s3') ->
         fst (download client dest_object_name bucket_name source_file_name w)
         = Return ("Object " +:+ dest_object_name +:+ " downloaded from bucket "
                   +:+ bucket_name +:+ ".")
         /\ fs w' = <[target := body]> (fs w)
         /\ fs w' !! target = Some body)
  /\ (forall e s3',
         get_object client bucket_name dest_object_name checked = (Raise e, s3') ->
         fst (download client dest_object_name bucket_name source_file_name w) = Raise e
         /\ fs w' = fs w).
Proof.
  intros path target checked w' Hbucket Hobject Hold.
  assert (Hneq : target <> path) by (apply append_longer; discriminate).
  subst w'. unfold download, bind.
  rewrite (_get_run _ _ _ Hbucket) in *. simpl in Hobject. simpl.
  rewrite (_get_object_run _ _ _ _ Hobject). simpl.
  fold path. unfold path_exists. simpl. rewrite Hold. simpl.
  fold target. unfold download_file, bind, request. simpl. fold checked.
  destruct (get_object client bucket_name dest_object_name checked)
    as [[body|e] s3''] eqn:Hfetch; simpl.
  - split; [rewrite <- !app_assoc; reflexivity|].
    split; [exact Hneq|].
    split; [rewrite lookup_insert_ne; [exact Hold | exact Hneq]|].
    split.
    + intros body' s3' [= <- _].
      split; [reflexivity|]. split; [reflexivity|].
      apply (lookup_insert_eq (fs w) target body).
    + intros e s3' [=].
  - split; [rewrite <- !app_assoc; reflexivity|].
    split; [exact Hneq|].
    split; [exact Hold|].
    split.
    + intros body s3' [=].
    + intros e' s3' [= <- _]. split; reflexivity.
Qed.

End Operations.

(** [deletedir photos] on the in-memory service, whose bucket [photos]
    holds two objects. *)
Lemma deletedir_bucket_not_empty_witness :
  fst (_get MemoryS3.client "photos" (MemoryS3.world false)) = Return true
  /\ delete_bucket MemoryS3.client "photos"
       (snd (head_bucket MemoryS3.client "photos" (s3 (MemoryS3.world false))))
     = (Raise MemoryS3.not_empty, MemoryS3.store false)
  /\ fst (deletedir MemoryS3.client "photos" (MemoryS3.world false))
     = Return "Directory is not empty. Delete objects before proceeding."
  /\ log (snd (deletedir MemoryS3.client "photos" (MemoryS3.world false)))
     = [HeadBucket "photos"; DeleteBucket "photos"].
Proof.
  assert (Hfound : fst (_get MemoryS3.client "photos" (MemoryS3.world false)) = Return true)
    by (vm_compute; reflexivity).
  assert (Hrefused :
            delete_bucket MemoryS3.client "photos"
              (snd (head_bucket MemoryS3.client "photos" (s3 (MemoryS3.world false))))
            = (Raise MemoryS3.not_empty, MemoryS3.store false))
    by (vm_compute; reflexivity).
  split; [exact Hfound|]. split; [exact Hrefused|].
  rewrite (proj1 (deletedir_bucket_not_empty MemoryS3.client "photos" _
                    (MemoryS3.world false) (MemoryS3.store false) Hfound Hrefused)).
  split; reflexivity.
Defined.

(** [download a.jpg photos] on the in-memory service, with a local
    file [a.jpg] in the way. *)
Lemma download_keeps_existing_file_witness :
  fs (MemoryS3.world false) !! "a.jpg" = Some "local"
  /\ log (snd (download MemoryS3.client "a.jpg" "photos" "" (MemoryS3.world false)))
     = [HeadBucket "photos"; HeadObject "photos" "a.jpg";
        DownloadFile "photos" "a.jpg" "a.jpg.bak.1730000000123"]
  /\ fs (snd (download MemoryS3.client "a.jpg" "photos" "" (MemoryS3.world false))) !! "a.jpg"
     = Some "local".
Proof.
  assert (Hbucket : fst (_get MemoryS3.client "photos" (MemoryS3.world false)) = Return true)
    by (vm_compute; reflexivity).
  assert (Hobject : fst (_get_object MemoryS3.client "photos" "a.jpg"
                           (snd (_get MemoryS3.client "photos" (MemoryS3.world false))))
                    = Return true)
    by (vm_compute; reflexivity).
  assert (Hold : fs (MemoryS3.world false) !! "a.jpg" = Some "local")
    by (vm_compute; reflexivity).
  pose proof (download_keeps_existing_file MemoryS3.client "a.jpg" "photos" "" "local"
                (MemoryS3.world false) Hbucket Hobject Hold) as (Hlog & _ & Hkept & _).
  split; [exact Hold|]. split; [exact Hlog | exact Hkept].
Defined.

(** ** [listdir] and [upload] *)

Section Listing.

Context {S3 : Type} (client : Client S3).

Lemma for_append_ret {X} (xs : list X) (f : X -> value) (result : list value) (w : World S3) :
  for_append xs (fun x => ret (f x)) result w = (Return (result ++ map f xs), w).
Proof.
  revert result. induction xs as [|x xs IH]; intros result; simpl.
  - rewrite app_nil_r. reflexivity.
  - unfold bind at 1. simpl. rewrite IH, <- app_assoc. reflexivity.
Qed.

Lemma str_items_strings (strs : list string) :
  str_items (map VStr strs) = Return strs.
Proof.
  induction strs as [|s strs IH]; simpl; [reflexivity|]. rewrite IH. reflexivity.
Qed.

(** With no bucket name, [listdir] joins the names of the buckets that
    the service lists. *)
Lemma listdir_all_buckets (w : World S3) (listed : list BucketEntry) (s3' : S3) :
  list_buckets client (s3 w) = (Return listed, s3') ->
  listdir client "" w
  = (Return (Py.join ", " (map Name listed)),
     mkWorld s3' (fs w) (now_ms w) (log w ++ [ListBuckets])
             (out w ++ ["Avaliable buckets list:"])).
Proof.
  intros Hlisted. unfold listdir. simpl.
  unfold bind at 1. unfold request. rewrite Hlisted. simpl.
  unfold bind at 1. simpl. unfold bind at 1.
  rewrite (for_append_ret listed (fun bucket => VStr (Name bucket))). simpl.
  unfold join_items. rewrite <- (map_map Name VStr), str_items_strings. reflexivity.
Qed.

(** With a bucket name, the loop of [listdir] appends [object_list['Name']]
    once for every entry of the response dictionary: the result repeats
    the name of the bucket and no key of an object is read. *)
Lemma listdir_repeats_name
    (bucket_name name : string) (w : World S3) (object_list : gmap string value) (s3' : S3) :
  bucket_name <> "" ->
  fst (_get client bucket_name w) = Return true ->
  list_objects_v2 client bucket_name (snd (head_bucket client bucket_name (s3 w)))
  = (Return object_list, s3') ->
  object_list !! "Name" = Some (VStr name) ->
  fst (listdir client bucket_name w)
  = Return (Py.join ", " (replicate (size object_list) name)).
Proof.
  intros Hname Hfound Hlisted Hentry. unfold listdir.
  destruct bucket_name as [|c rest]; [contradiction|].
  change (negb (Py.truthy (String c rest))) with false. cbv iota.
  unfold bind at 1. rewrite (_get_run _ _ _ _ Hfound). simpl.
  unfold bind at 1. unfold request. simpl. rewrite Hlisted. simpl.
  unfold bind at 1. simpl. unfold bind at 1.
  unfold dict_get. rewrite Hentry.
  rewrite (for_append_ret _ (fun _ => VStr name)). simpl.
  unfold join_items.
  replace (map (fun _ : string => VStr name) (map fst (map_to_list object_list)))
    with (map VStr (replicate (size object_list) name)).
  - rewrite str_items_strings. reflexivity.
  - rewrite <- length_map_to_list, map_map.
    induction (map_to_list object_list) as [|kv kvs IH]; simpl; [reflexivity|].
    rewrite <- IH. reflexivity.
Qed.

(** When the checks pass and the transfer fails, the exception leaves
    [upload]: the call is made before the [try] is entered. *)
Lemma upload_failure_propagates
    (source_file_name bucket_name dest_object_name body : string) (e : exn)
    (w : World S3) (s3' : S3) :
  fs w !! source_file_name = Some body ->
  fst (_get client bucket_name w) = Return true ->
  put_object client bucket_name
    (if String.eqb dest_object_name "" then source_file_name else dest_object_name)
    body (snd (Py.splitext source_file_name))
    (snd (head_bucket client bucket_name (s3 w)))
  = (Raise e, s3') ->
  fst (upload client source_file_name bucket_name dest_object_name w) = Raise e.
Proof.
  intros Hbody Hfound Hfails. unfold upload.
  unfold bind at 1. unfold path_exists. rewrite Hbody. simpl.
  unfold bind at 1. rewrite (_get_run _ _ _ _ Hfound). simpl.
  unfold bind at 1. unfold _get_file_extension, bind at 1, path_exists. simpl.
  rewrite Hbody. simpl.
  unfold bind at 1. simpl. unfold bind at 1.
  unfold upload_file, request. simpl. rewrite Hbody. simpl. rewrite Hfails.
  reflexivity.
Qed.

End Listing.

(** C1, at an input where the code departs from it: [listdir photos]
    on the in-memory service, whose bucket [photos] holds the objects
    [a.jpg] and [b.jpg].  The claim asks for the join of the keys of
    the listed objects; the answer of the code repeats the name
    of the bucket, once for each of the eight entries of the response
    dictionary, and is not the join of the two keys. *)
Theorem listdir_bucket_repeats_its_name :
  (exists object_list,
      fst (list_objects_v2 MemoryS3.client "photos" (MemoryS3.store false))
      = Return object_list
      /\ listed_keys object_list = ["a.jpg"; "b.jpg"]
      /\ size object_list = 8%nat)
  /\ fst (_get MemoryS3.client "photos" (MemoryS3.world false)) = Return true
  /\ fst (listdir MemoryS3.client "photos" (MemoryS3.world false))
     = Return "photos, photos, photos, photos, photos, photos, photos, photos"
  /\ fst (listdir MemoryS3.client "photos" (MemoryS3.world false))
     <> Return (Py.join ", " ["a.jpg"; "b.jpg"]).
Proof.
  split.
  - eexists. split; [reflexivity|]. split; vm_compute; reflexivity.
  - split; [vm_compute; reflexivity|].
    assert (Hrun : fst (listdir MemoryS3.client "photos" (MemoryS3.world false))
                   = Return "photos, photos, photos, photos, photos, photos, photos, photos")
      by (vm_compute; reflexivity).
    rewrite Hrun. split; [reflexivity | discriminate].
Qed.

(** C3, at an input where the code departs from it: [upload a.jpg
    photos] on the in-memory service when it refuses writes.  The claim
    asks for a failure string; the local file and the bucket exist, the
    transfer raises, and the exception leaves [upload]. *)
Theorem upload_failure_escapes :
  fs (MemoryS3.world true) !! "a.jpg" = Some "local"
  /\ fst (_get MemoryS3.client "photos" (MemoryS3.world true)) = Return true
  /\ fst (upload MemoryS3.client "a.jpg" "photos" "" (MemoryS3.world true))
     = Raise (MemoryS3.denied "PutObject")
  /\ log (snd (upload MemoryS3.client "a.jpg" "photos" "" (MemoryS3.world true)))
     = [HeadBucket "photos"; UploadFile "a.jpg" "photos" "a.jpg" ".jpg"].
Proof.
  assert (Hbody : fs (MemoryS3.world true) !! "a.jpg" = Some "local")
    by (vm_compute; reflexivity).
  assert (Hfound : fst (_get MemoryS3.client "photos" (MemoryS3.world true)) = Return true)
    by (vm_compute; reflexivity).
  split; [exact Hbody|]. split; [exact Hfound|]. split.
  - apply (upload_failure_propagates MemoryS3.client "a.jpg" "photos" "" "local"
             (MemoryS3.denied "PutObject") (MemoryS3.world true) (MemoryS3.store true)
             Hbody Hfound).
    vm_compute. reflexivity.
  - vm_compute. reflexivity.
Qed.

(** ** The tokens of an input line *)

Section Tokens.

Variable space : ascii -> bool.
Hypothesis space_blank : space " "%char = true.

Lemma push_words (t : string) (ts : list string) :
  all_chars (fun c => negb (space c)) t = true ->
  Forall (word space) ts -> Forall (word space) (Py.push t ts).
Proof.
  intros Ht Hts. destruct t as [|c t]; simpl; [exact Hts|].
  constructor; [|exact Hts]. split; [discriminate | exact Ht].
Qed.

Lemma scan_words (s : string) :
  all_chars (fun c => negb (space c)) (fst (Py.scan space s)) = true
  /\ Forall (word space) (snd (Py.scan space s)).
Proof.
  induction s as [|c s [IHt IHts]]; simpl.
  - split; [reflexivity | constructor].
  - destruct (Py.scan space s) as [t ts]. simpl in IHt, IHts.
    destruct (space c) eqn:Hc; simpl.
    + split; [reflexivity | apply push_words; assumption].
    + rewrite Hc. simpl. split; assumption.
Qed.

Lemma split_with_words (s : string) : Forall (word space) (Py.split_with space s).
Proof.
  unfold Py.split_with. pose proof (scan_words s) as [Ht Hts].
  destruct (Py.scan space s) as [t ts]. apply push_words; assumption.
Qed.

Lemma push_nil (t : string) (ts : list string) :
  Py.push t ts = [] <-> t = EmptyString /\ ts = [].
Proof.
  destruct t as [|c t]; simpl.
  - split; [intros ->; auto | intros [_ ->]; reflexivity].
  - split; [discriminate | intros [[=] _]].
Qed.

Lemma scan_blank (s : string) :
  Py.scan space s = (EmptyString, []) <-> all_chars space s = true.
Proof.
  induction s as [|c s IH]; simpl.
  - split; reflexivity.
  - destruct (Py.scan space s) as [t ts]. destruct (space c); simpl.
    + rewrite <- IH. split.
      * intros [= Hpush]. apply push_nil in Hpush as [-> ->]. reflexivity.
      * intros [= -> ->]. reflexivity.
    + split; discriminate.
Qed.

Lemma split_with_blank (s : string) :
  Py.split_with space s = [] <-> all_chars space s = true.
Proof.
  rewrite <- scan_blank. unfold Py.split_with.
  destruct (Py.scan space s) as [t ts]. rewrite push_nil.
  split; [intros [-> ->]; reflexivity | intros [= -> ->]; auto].
Qed.

Lemma split_on_word (t : string) :
  all_chars (fun c => negb (space c)) t = true ->
  Py.split_on " "%char t = [t].
Proof.
  induction t as [|c t IH]; simpl; [reflexivity|].
  intros [Hc Ht]%andb_prop. rewrite (IH Ht).
  destruct (Ascii.eqb_spec c " "%char) as [->|_]; [|reflexivity].
  rewrite space_blank in Hc. discriminate Hc.
Qed.

Lemma split_on_word_then (t rest : string) :
  all_chars (fun c => negb (space c)) t = true ->
  Py.split_on " "%char (t +:+ String " "%char rest) = t :: Py.split_on " "%char rest.
Proof.
  induction t as [|c t IH]; simpl; [reflexivity|].
  intros [Hc Ht]%andb_prop. rewrite (IH Ht).
  destruct (Ascii.eqb_spec c " "%char) as [->|_]; [|reflexivity].
  rewrite space_blank in Hc. discriminate Hc.
Qed.

(** Splitting the join of words at single blanks gives the words back. *)
Lemma split_on_join (t : string) (ts : list string) :
  Forall (word space) (t :: ts) ->
  Py.split_on " "%char (Py.join " " (t :: ts)) = t :: ts.
Proof.
  revert t. induction ts as [|u ts IH]; intros t Hwords.
  - simpl. apply split_on_word. inversion Hwords as [|? ? [_ Ht] _]. exact Ht.
  - inversion Hwords as [|? ? [_ Ht] Hrest]; subst.
    change (Py.join " " (t :: u :: ts)) with (t +:+ String " "%char (Py.join " " (u :: ts))).
    rewrite (split_on_word_then _ _ Ht), (IH u Hrest). reflexivity.
Qed.

End Tokens.

Lemma isspace_blank : Py.isspace " "%char = true.
Proof. reflexivity. Qed.

(** The empty line: [main] hands the empty string to [dispatch], whose
    split gives one token, the empty string. *)
Lemma tokens_of_empty_line :
  tokens "" = [""] /\ ~ Forall (fun t => t <> "") (tokens "").
Proof.
  split; [reflexivity|].
  intros Hnonempty. inversion Hnonempty as [|t ts Ht _]. apply Ht. reflexivity.
Qed.

(** C9, as the code has it: for a line with at least one character that
    is not white space the tokens are the words of the line, none of
    them empty and none containing white space; for an empty line and
    for a line of white space only there is exactly one token, the
    empty string. *)
Theorem tokens_of_line (line : string) :
  if all_chars Py.isspace line
  then tokens line = [""]
  else tokens line = Py.split line
       /\ Forall (fun t => t <> "") (tokens line)
       /\ Forall (fun t => all_chars (fun c => negb (Py.isspace c)) t = true) (tokens line).
Proof.
  unfold tokens, normalize.
  pose proof (split_with_blank Py.isspace line) as Hblank.
  pose proof (split_with_words Py.isspace line) as Hwords.
  fold (Py.split line) in Hblank, Hwords.
  destruct (all_chars Py.isspace line).
  - rewrite (proj2 Hblank eq_refl). reflexivity.
  - destruct (Py.split line) as [|t ts].
    + destruct Hblank as [Hblank _]. discriminate (Hblank eq_refl).
    + rewrite (split_on_join Py.isspace isspace_blank t ts Hwords).
      split; [reflexivity|].
      split; eapply Forall_impl; try exact Hwords; intros u [Hu Hfree]; assumption.
Qed.

(** * Further properties of the handler *)

(** ** [createdir] *)

Section CreateDir.

Context {S3 : Type} (client : Client S3).

(** A bucket that exists is reported and not created again: the
    existence check is the only call made. *)
Theorem createdir_existing_bucket (bucket_name : string) (w : World S3) :
  bucket_name <> "" ->
  fst (_get client bucket_name w) = Return true ->
  createdir client bucket_name w
  = (Return "Directory already exists.",
     mkWorld (snd (head_bucket client bucket_name (s3 w))) (fs w) (now_ms w)
             (log w ++ [HeadBucket bucket_name]) (out w)).
Proof.
  intros Hname Hfound. unfold createdir.
  destruct bucket_name as [|c rest]; [contradiction|].
  change (negb (Py.truthy (String c rest))) with false. cbv iota.
  unfold bind at 1, try_except, try_else. unfold bind at 1.
  rewrite (_get_run client _ _ _ Hfound). reflexivity.
Qed.

(** A bucket that does not exist is created in the region [us-east-2],
    and the answer names it. *)
Theorem createdir_new_bucket (bucket_name : string) (w : World S3) (s3' : S3) :
  bucket_name <> "" ->
  fst (_get client bucket_name w) = Return false ->
  create_bucket client bucket_name "us-east-2"
    (snd (head_bucket client bucket_name (s3 w))) = (Return tt, s3') ->
  createdir client bucket_name w
  = (Return ("Directory " +:+ bucket_name +:+ " created."),
     mkWorld s3' (fs w) (now_ms w)
             (log w ++ [HeadBucket bucket_name; CreateBucket bucket_name "us-east-2"])
             (out w)).
Proof.
  intros Hname Hfound Hcreated. unfold createdir.
  destruct bucket_name as [|c rest]; [contradiction|].
  change (negb (Py.truthy (String c rest))) with false. cbv iota.
  unfold bind at 1, try_except, try_else. unfold bind at 1.
  rewrite (_get_run client _ _ _ Hfound). cbv iota beta.
  unfold bind at 1, request. simpl. unfold REGION. rewrite Hcreated. simpl.
  rewrite <- app_assoc. reflexivity.
Qed.

(** An exception of the existence check or of the creation is printed
    and raised again. *)
Theorem createdir_reraises (bucket_name : string) (e : exn) (w : World S3) :
  bucket_name <> "" ->
  (fst (_get client bucket_name w) = Raise e ->
   createdir client bucket_name w
   = (Raise e,
      mkWorld (snd (head_bucket client bucket_name (s3 w))) (fs w) (now_ms w)
              (log w ++ [HeadBucket bucket_name]) (out w ++ [exn_str e])))
  /\ (forall s3',
         fst (_get client bucket_name w) = Return false ->
         create_bucket client bucket_name "us-east-2"
           (snd (head_bucket client bucket_name (s3 w))) = (Raise e, s3') ->
         createdir client bucket_name w
         = (Raise e,
            mkWorld s3' (fs w) (now_ms w)
                    (log w ++ [HeadBucket bucket_name;
                               CreateBucket bucket_name "us-east-2"])
                    (out w ++ [exn_str e]))).
Proof.
  intros Hname. destruct bucket_name as [|c rest]; [contradiction|].
  split.
  - intros Hcheck. unfold createdir.
    change (negb (Py.truthy (String c rest))) with false. cbv iota.
    unfold bind at 1, try_except, try_else. unfold bind at 1.
    rewrite (_get_run client _ _ _ Hcheck). reflexivity.
  - intros s3' Hfound Hrefused. unfold createdir.
    change (negb (Py.truthy (String c rest))) with false. cbv iota.
    unfold bind at 1, try_except, try_else. unfold bind at 1.
    rewrite (_get_run client _ _ _ Hfound). cbv iota beta.
    unfold bind at 1, request. simpl. unfold REGION. rewrite Hrefused. simpl.
    rewrite <- app_assoc. reflexivity.
Qed.

End CreateDir.

(** ** [dispatch] *)

Lemma len_cons {A} (x : A) (l : list A) : Py.len (x :: l) = 1 + Py.len l.
Proof. unfold Py.len. simpl length. lia. Qed.

Lemma len_nonneg {A} (l : list A) : 0 <= Py.len l.
Proof. unfold Py.len. lia. Qed.

Section DispatchForwards.

Context {S3 : Type} (self : Methods S3).

(** A first token that names none of the seven operations gets the
    fixed answer, and nothing is called. *)
Theorem dispatch_unrecognized (command_string command : string) (w : World S3) :
  Py.split_on " "%char command_string !! 0%nat = Some command ->
  ~ In command ["createdir"; "upload"; "download"; "delete"; "deletedir"; "find"; "listdir"] ->
  dispatch_with self command_string w = (Return "Command not recognized.", w).
Proof.
  intros Hfirst Hother. destruct (first_token_cases _ _ Hfirst) as [args Hparts].
  unfold dispatch_with. rewrite Hparts. unfold bind at 1. cbn [getitem lookup list_lookup].
  repeat match goal with
         | |- context [String.eqb command ?name] =>
             destruct (String.eqb_spec command name) as [->|_];
             [exfalso; apply Hother; simpl; tauto|]
         end.
  reflexivity.
Qed.

(** With two or more arguments, [upload], [download] and [delete] are
    called on the first two; the third argument of [upload] and
    [download] is the next token, or the empty string when there is
    none; tokens beyond these are ignored. *)
Theorem dispatch_two_arguments
    (command_string command first second : string) (more : list string) (w : World S3) :
  Py.split_on " "%char command_string = command :: first :: second :: more ->
  (command = "upload" ->
   dispatch_with self command_string w = m_upload self first second (hd "" more) w)
  /\ (command = "download" ->
      dispatch_with self command_string w = m_download self first second (hd "" more) w)
  /\ (command = "delete" ->
      dispatch_with self command_string w = m_delete self first second w).
Proof.
  intros Hparts. unfold dispatch_with. rewrite Hparts.
  assert (Henough : (Py.len (command :: first :: second :: more) <? 3) = false).
  { apply Z.ltb_ge. rewrite !len_cons. pose proof (len_nonneg more). lia. }
  assert (Hthird : (3 <? Py.len (command :: first :: second :: more))
                   = match more with [] => false | _ => true end).
  { destruct more as [|third more].
    - reflexivity.
    - apply Z.ltb_lt. rewrite !len_cons. pose proof (len_nonneg more). lia. }
  repeat split; intros ->; unfold bind at 1; cbn -[Py.len Z.ltb];
    rewrite Henough; unfold bind; cbn -[Py.len Z.ltb];
    try rewrite Hthird; destruct more; reflexivity.
Qed.

(** With one or more arguments, [createdir] and [deletedir] are called
    on the first; further tokens are ignored. *)
Theorem dispatch_one_argument
    (command_string command first : string) (more : list string) (w : World S3) :
  Py.split_on " "%char command_string = command :: first :: more ->
  (command = "createdir" ->
   dispatch_with self command_string w = m_createdir self first w)
  /\ (command = "deletedir" ->
      dispatch_with self command_string w = m_deletedir self first w).
Proof.
  intros Hparts. unfold dispatch_with. rewrite Hparts.
  assert (Hone : (1 <? Py.len (command :: first :: more)) = true).
  { apply Z.ltb_lt. rewrite !len_cons. pose proof (len_nonneg more). lia. }
  assert (Henough : (Py.len (command :: first :: more) <? 2) = false).
  { apply Z.ltb_ge. rewrite !len_cons. pose proof (len_nonneg more). lia. }
  split; intros ->; unfold bind at 1; cbn -[Py.len Z.ltb];
    rewrite ?Hone, ?Henough; unfold bind; reflexivity.
Qed.

End DispatchForwards.

(** ** [upload], [download], [delete] and [deletedir] *)

Section Transfers.

Context {S3 : Type} (client : Client S3).

(** Whatever the service replies, an existence check makes exactly one
    call and leaves the local files, the clock and the printed lines as
    they were. *)
Theorem existence_checks_one_call (bucket_name object_name : string) (w : World S3) :
  (let w' := snd (_get client bucket_name w) in
   log w' = log w ++ [HeadBucket bucket_name]
   /\ fs w' = fs w /\ now_ms w' = now_ms w /\ out w' = out w)
  /\ (let w' := snd (_get_object client bucket_name object_name w) in
      log w' = log w ++ [HeadObject bucket_name object_name]
      /\ fs w' = fs w /\ now_ms w' = now_ms w /\ out w' = out w).
Proof.
  simpl. rewrite _get_world, _get_object_world. simpl. repeat split.
Qed.

(** A local file that cannot go to a missing bucket: [upload] reports
    the bucket and makes no call after the existence check. *)
Theorem upload_non_existent_bucket
    (source_file_name bucket_name dest_object_name body : string) (w : World S3) :
  fs w !! source_file_name = Some body ->
  fst (_get client bucket_name w) = Return false ->
  upload client source_file_name bucket_name dest_object_name w
  = (Return "Directory does not exist.",
     mkWorld (snd (head_bucket client bucket_name (s3 w))) (fs w) (now_ms w)
             (log w ++ [HeadBucket bucket_name]) (out w)).
Proof.
  intros Hbody Hfound. unfold upload.
  unfold bind at 1. unfold path_exists. rewrite Hbody. simpl.
  unfold bind at 1. rewrite (_get_run client _ _ _ Hfound). reflexivity.
Qed.

(** A successful upload sends the content of the local file under the
    object name given, or under the name of the file when none is
    given, with the extension of the file name as its content type. *)
Theorem upload_success
    (source_file_name bucket_name dest_object_name body : string)
    (w : World S3) (s3' : S3) :
  let key := if String.eqb dest_object_name "" then source_file_name
             else dest_object_name in
  let extension := snd (Py.splitext source_file_name) in
  fs w !! source_file_name = Some body ->
  fst (_get client bucket_name w) = Return true ->
  put_object client bucket_name key body extension
    (snd (head_bucket client bucket_name (s3 w))) = (Return tt, s3') ->
  upload client source_file_name bucket_name dest_object_name w
  = (Return ("File " +:+ source_file_name +:+ " uploaded to bucket " +:+ bucket_name +:+ "."),
     mkWorld s3' (fs w) (now_ms w)
             (log w ++ [HeadBucket bucket_name;
                        UploadFile source_file_name bucket_name key extension])
             (out w)).
Proof.
  intros key extension Hbody Hfound Hsent. unfold upload.
  unfold bind at 1. unfold path_exists. rewrite Hbody. simpl.
  unfold bind at 1. rewrite (_get_run client _ _ _ Hfound). simpl.
  unfold bind at 1. unfold _get_file_extension, bind at 1, path_exists. simpl.
  rewrite Hbody. simpl.
  unfold bind at 1. simpl. unfold bind at 1.
  unfold upload_file, request. simpl. rewrite Hbody. simpl.
  fold key. fold extension. rewrite Hsent. unfold try_else. simpl.
  rewrite <- app_assoc. reflexivity.
Qed.

(** [download] stops at the first check that fails: a missing bucket
    is reported without asking for the object, a missing object without
    starting the transfer; no local file is written. *)
Theorem download_non_existent
    (dest_object_name bucket_name source_file_name : string) (w : World S3) :
  (fst (_get client bucket_name w) = Return false ->
   download client dest_object_name bucket_name source_file_name w
   = (Return "Directory does not exist.",
      mkWorld (snd (head_bucket client bucket_name (s3 w))) (fs w) (now_ms w)
              (log w ++ [HeadBucket bucket_name]) (out w)))
  /\ (fst (_get client bucket_name w) = Return true ->
      fst (_get_object client bucket_name dest_object_name
             (snd (_get client bucket_name w))) = Return false ->
      download client dest_object_name bucket_name source_file_name w
      = (Return "Destination object does not exist.",
         mkWorld (snd (head_object client bucket_name dest_object_name
                         (snd (head_bucket client bucket_name (s3 w)))))
                 (fs w) (now_ms w)
                 (log w ++ [HeadBucket bucket_name;
                            HeadObject bucket_name dest_object_name])
                 (out w))).
Proof.
  split.
  - intros Hbucket. unfold download, bind.
    rewrite (_get_run client _ _ _ Hbucket). reflexivity.
  - intros Hbucket Hobject. unfold download, bind.
    rewrite (_get_run client _ _ _ Hbucket) in *. simpl in Hobject. simpl.
    rewrite (_get_object_run client _ _ _ _ Hobject). simpl.
    rewrite <- app_assoc. reflexivity.
Qed.


(** The three ways [delete] ends once the bucket exists: a missing
    object is reported and nothing is deleted; a deletion that the
    service performs is confirmed; a deletion that the service refuses
    raises, since the call is made before the [try] is entered. *)
Theorem delete_outcomes (dest_object_name bucket_name : string) (w : World S3) :
  let checked := snd (head_object client bucket_name dest_object_name
                        (snd (head_bucket client bucket_name (s3 w)))) in
  let asked := log w ++ [HeadBucket bucket_name; HeadObject bucket_name dest_object_name] in
  fst (_get client bucket_name w) = Return true ->
  (fst (_get_object client bucket_name dest_object_name (snd (_get client bucket_name w)))
   = Return false ->
   delete client dest_object_name bucket_name w
   = (Return "Destination object does not exist.",
      mkWorld checked (fs w) (now_ms w) asked (out w)))
  /\ (forall reply s3',
         fst (_get_object client bucket_name dest_object_name
                (snd (_get client bucket_name w))) = Return true ->
         delete_object client bucket_name dest_object_name checked = (reply, s3') ->
         delete client dest_object_name bucket_name w
         = (match reply with
            | Return _ => Return ("Object " +:+ dest_object_name +:+ " deleted from bucket "
                                  +:+ bucket_name +:+ ".")
            | Raise e => Raise e
            end,
            mkWorld s3' (fs w) (now_ms w)
                    (asked ++ [DeleteObject bucket_name dest_object_name]) (out w))).
Proof.
  intros checked asked Hbucket. split.
  - intros Hobject. unfold delete, bind.
    rewrite (_get_run client _ _ _ Hbucket) in *. simpl in Hobject. simpl.
    rewrite (_get_object_run client _ _ _ _ Hobject). simpl.
    subst asked. rewrite <- app_assoc. reflexivity.
  - intros reply s3' Hobject Hreply. unfold delete, bind.
    rewrite (_get_run client _ _ _ Hbucket) in *. simpl in Hobject. simpl.
    rewrite (_get_object_run client _ _ _ _ Hobject). simpl.
    unfold request. simpl. fold checked. rewrite Hreply.
    subst asked. destruct reply; simpl; rewrite <- !app_assoc; reflexivity.
Qed.

(** [deletedir] on a missing bucket reports it and asks for no
    deletion. *)
Theorem deletedir_non_existent_bucket (bucket_name : string) (w : World S3) :
  fst (_get client bucket_name w) = Return false ->
  deletedir client bucket_name w
  = (Return "Directory does not exist.",
     mkWorld (snd (head_bucket client bucket_name (s3 w))) (fs w) (now_ms w)
             (log w ++ [HeadBucket bucket_name]) (out w)).
Proof.
  intros Hfound. unfold deletedir, bind.
  rewrite (_get_run client _ _ _ Hfound). reflexivity.
Qed.

(** How [deletedir] ends once the bucket exists, by the reply to the
    deletion: success is confirmed; a [ClientError] with a code other
    than [BucketNotEmpty] becomes a failure string that carries the
    text of the error; any other exception is raised. *)
Theorem deletedir_outcomes (bucket_name : string) (reply : result unit)
    (w : World S3) (s3' : S3) :
  fst (_get client bucket_name w) = Return true ->
  delete_bucket client bucket_name (snd (head_bucket client bucket_name (s3 w)))
  = (reply, s3') ->
  let w' := mkWorld s3' (fs w) (now_ms w)
                    (log w ++ [HeadBucket bucket_name; DeleteBucket bucket_name]) (out w) in
  (reply = Return tt ->
   deletedir client bucket_name w = (Return ("Deleted bucket " +:+ bucket_name +:+ "."), w'))
  /\ (forall code text,
         reply = Raise (ClientError code text) -> code <> "BucketNotEmpty" ->
         deletedir client bucket_name w
         = (Return ("Failed to delete bucket " +:+ bucket_name +:+ ": " +:+ text), w'))
  /\ (forall e,
         reply = Raise e -> (forall code text, e <> ClientError code text) ->
         deletedir client bucket_name w = (Raise e, w')).
Proof.
  intros Hfound Hreply w'. subst w'.
  assert (Hrun : forall r,
             reply = r ->
             deletedir client bucket_name w
             = try_else (lift r)
                 (fun e =>
                    match e with
                    | ClientError code _ =>
                        if String.eqb code "BucketNotEmpty"
                        then lift (_error_messages (KStr "bucket_not_empty"))
                        else ret ("Failed to delete bucket " +:+ bucket_name +:+ ": "
                                  +:+ exn_str e)
                    | _ => raise e
                    end)
                 (fun _ => ret ("Deleted bucket " +:+ bucket_name +:+ "."))
                 (mkWorld s3' (fs w) (now_ms w)
                          (log w ++ [HeadBucket bucket_name; DeleteBucket bucket_name])
                          (out w))).
  { intros r <-. unfold deletedir, bind. rewrite (_get_run client _ _ _ Hfound). simpl.
    unfold try_else, request, lift. simpl. rewrite Hreply. rewrite <- app_assoc.
    reflexivity. }
  repeat split.
  - intros Hr. rewrite (Hrun _ Hr). reflexivity.
  - intros code text Hr Hcode. rewrite (Hrun _ Hr). unfold try_else, lift.
    destruct (String.eqb_spec code "BucketNotEmpty"); [contradiction|reflexivity].
  - intros e Hr Hother. rewrite (Hrun _ Hr). unfold try_else, lift.
    destruct e; try reflexivity. exfalso. eapply Hother. reflexivity.
Qed.

End Transfers.

(** ** [listdir] and the catalog at their edges *)

Section ListingEdges.

Context {S3 : Type} (client : Client S3).

(** [listdir] on a missing bucket reports it and lists nothing. *)
Theorem listdir_non_existent_bucket (bucket_name : string) (w : World S3) :
  bucket_name <> "" ->
  fst (_get client bucket_name w) = Return false ->
  listdir client bucket_name w
  = (Return "Directory does not exist.",
     mkWorld (snd (head_bucket client bucket_name (s3 w))) (fs w) (now_ms w)
             (log w ++ [HeadBucket bucket_name]) (out w)).
Proof.
  intros Hname Hfound. unfold listdir.
  destruct bucket_name as [|c rest]; [contradiction|].
  change (negb (Py.truthy (String c rest))) with false. cbv iota.
  unfold bind at 1. rewrite (_get_run client _ _ _ Hfound). reflexivity.
Qed.

(** A response of [list_objects_v2] that has entries but none under
    ['Name'] makes [listdir] fail with a [KeyError], after the heading
    is printed; a response with no entry at all gives the empty
    string. *)
Theorem listdir_response_without_name
    (bucket_name : string) (object_list : gmap string value) (w : World S3) (s3' : S3) :
  bucket_name <> "" ->
  fst (_get client bucket_name w) = Return true ->
  list_objects_v2 client bucket_name (snd (head_bucket client bucket_name (s3 w)))
  = (Return object_list, s3') ->
  object_list !! "Name" = None ->
  let w' := mkWorld s3' (fs w) (now_ms w)
              (log w ++ [HeadBucket bucket_name; ListObjectsV2 bucket_name])
              (out w ++ ["Available objects in directory " +:+ bucket_name +:+ ":"]) in
  listdir client bucket_name w
  = (if bool_decide (object_list = ∅) then Return "" else Raise (KeyError "Name"), w').
Proof.
  intros Hname Hfound Hlisted Hentry w'. subst w'. unfold listdir.
  destruct bucket_name as [|c rest]; [contradiction|].
  change (negb (Py.truthy (String c rest))) with false. cbv iota.
  unfold bind at 1. rewrite (_get_run client _ _ _ Hfound). simpl.
  unfold bind at 1. unfold request. simpl. rewrite Hlisted. simpl.
  unfold bind at 1. simpl. unfold bind at 1.
  unfold dict_get. rewrite Hentry. rewrite <- app_assoc. simpl.
  case_bool_decide as Hempty.
  - subst object_list. rewrite map_to_list_empty. reflexivity.
  - destruct (map_to_list object_list) as [|kv kvs] eqn:Hlist.
    + apply map_to_list_empty_iff in Hlist. contradiction.
    + reflexivity.
Qed.

End ListingEdges.

(** A key that is truthy and is not in the catalog is a [KeyError]:
    only falsy keys fall back to [unknown_error]. *)
Theorem error_messages_unknown_key (key : string) :
  key <> "" ->
  error_message_dict !! key = None ->
  _error_messages (KStr key) = Raise (KeyError key).
Proof.
  intros Hkey Hmissing. destruct key as [|c key]; [contradiction|].
  unfold _error_messages. simpl. rewrite Hmissing. reflexivity.
Qed.

(** ** Local files are written by [download] only *)

Section KeepsFiles.

Context {S3 : Type} (client : Client S3).






















End KeepsFiles.

(** ** The tokens, once more *)

Lemma split_on_cons (sep : ascii) (s : string) :
  exists field fields, Py.split_on sep s = field :: fields.
Proof.
  destruct s as [|c s]; simpl; [eauto|].
  destruct (Ascii.eqb c sep); [eauto|].
  destruct (Py.split_on sep s); eauto.
Qed.

(** Splitting at single blanks loses nothing: the parts that
    [dispatch] works on, joined by single blanks, are the command
    string, and there is always a first part. *)
Theorem split_on_blank_join (command_string : string) :
  Py.join " " (Py.split_on " "%char command_string) = command_string
  /\ exists command, Py.split_on " "%char command_string !! 0%nat = Some command.
Proof.
  split.
  - induction command_string as [|c s IH]; [reflexivity|].
    simpl. destruct (split_on_cons " "%char s) as (field & fields & Hparts).
    rewrite Hparts in *. destruct (Ascii.eqb_spec c " "%char) as [->|_].
    + change (Py.join " " ("" :: field :: fields))
        with (String " "%char (Py.join " " (field :: fields))).
      rewrite IH. reflexivity.
    + rewrite <- IH. destruct fields; reflexivity.
  - destruct (split_on_cons " "%char command_string) as (field & fields & ->). eauto.
Qed.

Section Renormalize.

Variable space : ascii -> bool.
Hypothesis space_blank : space " "%char = true.

Lemma scan_word_prefix (t s : string) :
  all_chars (fun c => negb (space c)) t = true ->
  Py.scan space (t +:+ s) = (t +:+ fst (Py.scan space s), snd (Py.scan space s)).
Proof.
  induction t as [|c t IH]; simpl.
  - intros _. change ("" +:+ s) with s. destruct (Py.scan space s); reflexivity.
  - intros [Hc Ht]%andb_prop. rewrite (IH Ht).
    apply negb_true_iff in Hc. rewrite Hc. reflexivity.
Qed.

Lemma append_empty (t : string) : t +:+ "" = t.
Proof.
  induction t as [|c t IH]; [reflexivity|].
  change (String c t +:+ "") with (String c (t +:+ "")). rewrite IH. reflexivity.
Qed.

(** Splitting the join of words at white space gives the words back. *)
Lemma split_with_join (ts : list string) :
  Forall (word space) ts -> Py.split_with space (Py.join " " ts) = ts.
Proof.
  induction ts as [|t ts IH]; intros Hwords; [reflexivity|].
  inversion Hwords as [|? ? [Hnonempty Hfree] Hrest]; subst.
  specialize (IH Hrest). unfold Py.split_with in *.
  destruct ts as [|u ts].
  - simpl. rewrite <- (append_empty t) at 1. rewrite (scan_word_prefix _ _ Hfree).
    simpl. rewrite append_empty. destruct t; [contradiction | reflexivity].
  - change (Py.join " " (t :: u :: ts))
      with (t +:+ String " "%char (Py.join " " (u :: ts))).
    remember (Py.join " " (u :: ts)) as joined eqn:Hjoined.
    rewrite (scan_word_prefix _ _ Hfree).
    change (Py.scan space (String " "%char joined))
      with (let '(v, vs) := Py.scan space joined in
            if space " "%char then (EmptyString, Py.push v vs) else (String " "%char v, vs)).
    destruct (Py.scan space joined) as [v vs].
    rewrite space_blank. cbn [fst snd]. rewrite IH, append_empty.
    destruct t; [contradiction | reflexivity].
Qed.

End Renormalize.

Lemma split_normalize (line : string) : Py.split (normalize line) = Py.split line.
Proof.
  unfold normalize, Py.split.
  apply (split_with_join Py.isspace isspace_blank), split_with_words.
Qed.

(** Collapsing white space twice is collapsing it once, and it keeps
    the words of the line. *)
Theorem normalize_idempotent (line : string) :
  Py.split (normalize line) = Py.split line
  /\ normalize (normalize line) = normalize line.
Proof.
  split; [apply split_normalize|].
  unfold normalize at 1. rewrite split_normalize. reflexivity.
Qed.

(** ** The loop of [main] *)

Section MainRound.

Context {S3 : Type} (client : Client S3).

(** The loop ends exactly on the lines whose only word is [exit],
    whatever white space surrounds it. *)
Theorem main_round_stops_iff (line : string) (w : World S3) :
  fst (main_round client line w) = false <-> Py.split line = ["exit"].
Proof.
  unfold main_round. destruct (String.eqb_spec (normalize line) "exit") as [Hexit|Hother]; simpl.
  - split; [intros _ | reflexivity].
    rewrite <- split_normalize, Hexit. reflexivity.
  - split; [discriminate|]. intros Hwords. exfalso. apply Hother.
    unfold normalize. rewrite Hwords. reflexivity.
Qed.

(** [exit] and [help] are answered by the shell itself: a farewell or
    the eight lines of help are printed, and the service, the local
    files and the log of calls stay as they were. *)
Theorem main_round_reserved_words (line : string) (w : World S3) :
  (Py.split line = ["exit"] ->
   main_round client line w
   = (false, mkWorld (s3 w) (fs w) (now_ms w) (log w) (out w ++ ["Goodbye!"])))
  /\ (Py.split line = ["help"] ->
      fst (main_round client line w) = true
      /\ (exists lines,
             length lines = 8%nat
             /\ snd (main_round client line w)
                = mkWorld (s3 w) (fs w) (now_ms w) (log w) (out w ++ lines))).
Proof.
  split; intros Hwords; unfold main_round, normalize; rewrite Hwords; simpl.
  - reflexivity.
  - split; [reflexivity|]. eexists. split; [|rewrite <- !app_assoc; reflexivity].
    reflexivity.
Qed.

(** Any other line is dispatched, and the loop goes on whatever comes
    of it: the answer is printed, and when the command raises, the
    text of the exception is printed instead. *)
Theorem main_round_prints (line : string) (w : World S3) :
  normalize line <> "exit" ->
  normalize line <> "help" ->
  main_round client line w
  = (true,
     let '(outcome, w') := dispatch client (normalize line) w in
     mkWorld (s3 w') (fs w') (now_ms w') (log w')
             (out w' ++ [match outcome with
                         | Return response => response
                         | Raise e => exn_str e
                         end])).
Proof.
  intros Hexit Hhelp. unfold main_round.
  destruct (String.eqb_spec (normalize line) "exit"); [contradiction|].
  destruct (String.eqb_spec (normalize line) "help"); [contradiction|].
  unfold try_except, try_else, bind, print.
  destruct (dispatch client (normalize line) w) as [[response|e] w']; reflexivity.
Qed.

(** An empty line and a line of white space only are answered with
    [Command not recognized.], and nothing is called. *)
Theorem main_round_blank_line (line : string) (w : World S3) :
  all_chars Py.isspace line = true ->
  main_round client line w
  = (true, mkWorld (s3 w) (fs w) (now_ms w) (log w)
                   (out w ++ ["Command not recognized."])).
Proof.
  intros Hblank. apply (split_with_blank Py.isspace) in Hblank.
  unfold main_round, normalize. fold (Py.split line). unfold Py.split.
  rewrite Hblank. reflexivity.
Qed.

End MainRound.

(** ** [dispatch] never fails by itself *)

Section DispatchTotal.

Context {S3 : Type} (self : Methods S3).

Lemma dispatch_with_cases (P : result string * World S3 -> Prop)
    (command_string : string) (w : World S3) :
  (forall text, P (Return text, w)) ->
  (forall a, P (m_createdir self a w)) ->
  (forall a b c, P (m_upload self a b c w)) ->
  (forall a b c, P (m_download self a b c w)) ->
  (forall a b, P (m_delete self a b w)) ->
  (forall a, P (m_deletedir self a w)) ->
  (forall a b, P (m_find self a b w)) ->
  (forall a, P (m_listdir self a w)) ->
  P (dispatch_with self command_string w).
Proof.
  intros Htext Hcreatedir Hupload Hdownload Hdelete Hdeletedir Hfind Hlistdir.
  unfold dispatch_with.
  destruct (split_on_cons " "%char command_string) as (command & args & ->).
  unfold bind at 1. cbn [getitem lookup list_lookup].
  destruct (String.eqb command "createdir").
  { destruct args as [|a args]; [apply Htext|].
    replace (1 <? Py.len (command :: a :: args)) with true
      by (symmetry; apply Z.ltb_lt; rewrite !len_cons; pose proof (len_nonneg args); lia).
    apply Hcreatedir. }
  destruct (String.eqb command "upload").
  { destruct args as [|a [|b args]]; [apply Htext | apply Htext |].
    replace (Py.len (command :: a :: b :: args) <? 3) with false
      by (symmetry; apply Z.ltb_ge; rewrite !len_cons; pose proof (len_nonneg args); lia).
    destruct args as [|c args]; [apply Hupload|].
    replace (3 <? Py.len (command :: a :: b :: c :: args)) with true
      by (symmetry; apply Z.ltb_lt; rewrite !len_cons; pose proof (len_nonneg args); lia).
    apply Hupload. }
  destruct (String.eqb command "download").
  { destruct args as [|a [|b args]]; [apply Htext | apply Htext |].
    replace (Py.len (command :: a :: b :: args) <? 3) with false
      by (symmetry; apply Z.ltb_ge; rewrite !len_cons; pose proof (len_nonneg args); lia).
    destruct args as [|c args]; [apply Hdownload|].
    replace (3 <? Py.len (command :: a :: b :: c :: args)) with true
      by (symmetry; apply Z.ltb_lt; rewrite !len_cons; pose proof (len_nonneg args); lia).
    apply Hdownload. }
  destruct (String.eqb command "delete").
  { destruct args as [|a [|b args]]; [apply Htext | apply Htext |].
    replace (Py.len (command :: a :: b :: args) <? 3) with false
      by (symmetry; apply Z.ltb_ge; rewrite !len_cons; pose proof (len_nonneg args); lia).
    apply Hdelete. }
  destruct (String.eqb command "deletedir").
  { destruct args as [|a args]; [apply Htext|].
    replace (Py.len (command :: a :: args) <? 2) with false
      by (symmetry; apply Z.ltb_ge; rewrite !len_cons; pose proof (len_nonneg args); lia).
    apply Hdeletedir. }
  destruct (String.eqb command "find"); [apply Hfind|].
  destruct (String.eqb command "listdir").
  { destruct args as [|a args]; [apply Hlistdir|].
    replace (1 <? Py.len (command :: a :: args)) with true
      by (symmetry; apply Z.ltb_lt; rewrite !len_cons; pose proof (len_nonneg args); lia).
    apply Hlistdir. }
  apply Htext.
Qed.

(** Whatever the command string, [dispatch] either answers with a text
    and leaves the world as it was, or its outcome is that of one call
    of one method on the world as it was: indexing the tokens never
    fails, and nothing happens before or after the call. *)
Theorem dispatch_answers_or_calls (command_string : string) (w : World S3) :
  (exists text, dispatch_with self command_string w = (Return text, w))
  \/ (exists a, dispatch_with self command_string w = m_createdir self a w)
  \/ (exists a b c, dispatch_with self command_string w = m_upload self a b c w)
  \/ (exists a b c, dispatch_with self command_string w = m_download self a b c w)
  \/ (exists a b, dispatch_with self command_string w = m_delete self a b w)
  \/ (exists a, dispatch_with self command_string w = m_deletedir self a w)
  \/ (exists a b, dispatch_with self command_string w = m_find self a b w)
  \/ (exists a, dispatch_with self command_string w = m_listdir self a w).
Proof.
  apply (dispatch_with_cases
           (fun outcome =>
              (exists text, outcome = (Return text, w))
              \/ (exists a, outcome = m_createdir self a w)
              \/ (exists a b c, outcome = m_upload self a b c w)
              \/ (exists a b c, outcome = m_download self a b c w)
              \/ (exists a b, outcome = m_delete self a b w)
              \/ (exists a, outcome = m_deletedir self a w)
              \/ (exists a b, outcome = m_find self a b w)
              \/ (exists a, outcome = m_listdir self a w))); intros; eauto 12.
Qed.

End DispatchTotal.

(** ** The further properties at concrete inputs *)

Lemma createdir_existing_bucket_witness :
  fst (createdir MemoryS3.client "photos" (MemoryS3.world false))
  = Return "Directory already exists.".
Proof.
  rewrite createdir_existing_bucket; [reflexivity | discriminate | vm_compute; reflexivity].
Defined.

Lemma createdir_new_bucket_witness :
  createdir MemoryS3.client "music" (MemoryS3.world false)
  = (Return "Directory music created.",
     mkWorld (MemoryS3.set_buckets (MemoryS3.store false)
                (<["music" := ∅]> (MemoryS3.buckets (MemoryS3.store false))))
             (fs (MemoryS3.world false)) 1730000000123
             [HeadBucket "music"; CreateBucket "music" "us-east-2"] []).
Proof.
  apply (createdir_new_bucket MemoryS3.client "music" (MemoryS3.world false));
    [discriminate | vm_compute; reflexivity | vm_compute; reflexivity].
Defined.

Lemma createdir_reraises_witness :
  fst (createdir MemoryS3.client "music" (MemoryS3.world true))
  = Raise (MemoryS3.denied "CreateBucket")
  /\ out (snd (createdir MemoryS3.client "music" (MemoryS3.world true)))
     = [exn_str (MemoryS3.denied "CreateBucket")].
Proof.
  assert (Hname : "music" <> "") by discriminate.
  rewrite (proj2 (createdir_reraises MemoryS3.client "music" (MemoryS3.denied "CreateBucket")
                    (MemoryS3.world true) Hname) (MemoryS3.store true));
    [split; reflexivity | vm_compute; reflexivity | vm_compute; reflexivity].
Defined.

Lemma dispatch_unrecognized_witness :
  dispatch MemoryS3.client "rename a b" (MemoryS3.world false)
  = (Return "Command not recognized.", MemoryS3.world false).
Proof.
  apply (dispatch_unrecognized (S3Handler MemoryS3.client) "rename a b" "rename");
    [reflexivity|].
  simpl. intros [H|[H|[H|[H|[H|[H|[H|[]]]]]]]]; discriminate H.
Defined.

Lemma dispatch_two_arguments_witness :
  dispatch MemoryS3.client "upload a.jpg photos pics/a.jpg extra" (MemoryS3.world false)
  = upload MemoryS3.client "a.jpg" "photos" "pics/a.jpg" (MemoryS3.world false).
Proof.
  apply (proj1 (dispatch_two_arguments (S3Handler MemoryS3.client)
                  "upload a.jpg photos pics/a.jpg extra" "upload" "a.jpg" "photos"
                  ["pics/a.jpg"; "extra"] (MemoryS3.world false) eq_refl)).
  reflexivity.
Defined.

Lemma dispatch_one_argument_witness :
  dispatch MemoryS3.client "deletedir photos now" (MemoryS3.world false)
  = deletedir MemoryS3.client "photos" (MemoryS3.world false).
Proof.
  apply (proj2 (dispatch_one_argument (S3Handler MemoryS3.client)
                  "deletedir photos now" "deletedir" "photos" ["now"]
                  (MemoryS3.world false) eq_refl)).
  reflexivity.
Defined.

Lemma upload_non_existent_bucket_witness :
  fst (upload MemoryS3.client "a.jpg" "music" "" (MemoryS3.world false))
  = Return "Directory does not exist."
  /\ log (snd (upload MemoryS3.client "a.jpg" "music" "" (MemoryS3.world false)))
     = [HeadBucket "music"].
Proof.
  rewrite (upload_non_existent_bucket MemoryS3.client "a.jpg" "music" "" "local");
    [split; reflexivity | vm_compute; reflexivity | vm_compute; reflexivity].
Defined.

Lemma upload_success_witness :
  fst (upload MemoryS3.client "a.jpg" "photos" "" (MemoryS3.world false))
  = Return "File a.jpg uploaded to bucket photos."
  /\ log (snd (upload MemoryS3.client "a.jpg" "photos" "" (MemoryS3.world false)))
     = [HeadBucket "photos"; UploadFile "a.jpg" "photos" "a.jpg" ".jpg"].
Proof.
  rewrite (upload_success MemoryS3.client "a.jpg" "photos" "" "local" (MemoryS3.world false)
             (MemoryS3.set_buckets (MemoryS3.store false)
                (<["photos" := <["a.jpg" := "local"]> MemoryS3.photos]>
                   (MemoryS3.buckets (MemoryS3.store false)))));
    [split; reflexivity | vm_compute; reflexivity | vm_compute; reflexivity
     | vm_compute; reflexivity].
Defined.

Lemma download_non_existent_witness :
  fst (download MemoryS3.client "c.jpg" "photos" "" (MemoryS3.world false))
  = Return "Destination object does not exist."
  /\ fs (snd (download MemoryS3.client "c.jpg" "photos" "" (MemoryS3.world false)))
     = fs (MemoryS3.world false).
Proof.
  rewrite (proj2 (download_non_existent MemoryS3.client "c.jpg" "photos" ""
                    (MemoryS3.world false)));
    [split; reflexivity | vm_compute; reflexivity | vm_compute; reflexivity].
Defined.


Lemma delete_outcomes_witness :
  fst (delete MemoryS3.client "a.jpg" "photos" (MemoryS3.world true))
  = Raise (MemoryS3.denied "DeleteObject").
Proof.
  assert (Hbucket : fst (_get MemoryS3.client "photos" (MemoryS3.world true)) = Return true)
    by (vm_compute; reflexivity).
  rewrite (proj2 (delete_outcomes MemoryS3.client "a.jpg" "photos" (MemoryS3.world true)
                    Hbucket)
                 (Raise (MemoryS3.denied "DeleteObject")) (MemoryS3.store true));
    [reflexivity | vm_compute; reflexivity | vm_compute; reflexivity].
Defined.

Lemma deletedir_non_existent_bucket_witness :
  fst (deletedir MemoryS3.client "music" (MemoryS3.world false))
  = Return "Directory does not exist.".
Proof.
  rewrite deletedir_non_existent_bucket; [reflexivity | vm_compute; reflexivity].
Defined.

Lemma deletedir_outcomes_witness :
  fst (deletedir MemoryS3.client "photos" (MemoryS3.world true))
  = Return ("Failed to delete bucket photos: "
            +:+ exn_str (MemoryS3.denied "DeleteBucket")).
Proof.
  assert (Hfound : fst (_get MemoryS3.client "photos" (MemoryS3.world true)) = Return true)
    by (vm_compute; reflexivity).
  assert (Hreply : delete_bucket MemoryS3.client "photos"
                     (snd (head_bucket MemoryS3.client "photos" (s3 (MemoryS3.world true))))
                   = (Raise (MemoryS3.denied "DeleteBucket"), MemoryS3.store true))
    by (vm_compute; reflexivity).
  rewrite (proj1 (proj2 (deletedir_outcomes MemoryS3.client "photos" _ (MemoryS3.world true)
                           (MemoryS3.store true) Hfound Hreply))
                 "AccessDenied" (exn_str (MemoryS3.denied "DeleteBucket")));
    [reflexivity | reflexivity | discriminate].
Defined.

Lemma listdir_non_existent_bucket_witness :
  fst (listdir MemoryS3.client "music" (MemoryS3.world false))
  = Return "Directory does not exist.".
Proof.
  rewrite listdir_non_existent_bucket;
    [reflexivity | discriminate | vm_compute; reflexivity].
Defined.

Lemma listdir_response_without_name_witness :
  fst (listdir (fixed_listing_client (<["KeyCount" := VInt 0]> ∅)) "photos" blank_world)
  = Raise (KeyError "Name").
Proof.
  rewrite (listdir_response_without_name (fixed_listing_client (<["KeyCount" := VInt 0]> ∅))
             "photos" (<["KeyCount" := VInt 0]> ∅) blank_world tt);
    [vm_compute; reflexivity | discriminate | vm_compute; reflexivity
     | reflexivity | vm_compute; reflexivity].
Defined.

Lemma error_messages_unknown_key_witness :
  _error_messages (KStr "bucket_missing") = Raise (KeyError "bucket_missing").
Proof.
  apply error_messages_unknown_key; [discriminate | vm_compute; reflexivity].
Defined.

Lemma listdir_all_buckets_witness :
  fst (listdir MemoryS3.client "" (MemoryS3.world false)) = Return "photos".
Proof.
  rewrite (listdir_all_buckets MemoryS3.client (MemoryS3.world false)
             [{| Name := "photos"; CreationDate := "" |}] (MemoryS3.store false));
    [reflexivity | vm_compute; reflexivity].
Defined.


Lemma main_round_reserved_words_witness :
  main_round MemoryS3.client "   exit  " (MemoryS3.world false)
  = (false, mkWorld (MemoryS3.store false) (fs (MemoryS3.world false)) 1730000000123 []
                    ["Goodbye!"]).
Proof.
  apply (proj1 (main_round_reserved_words MemoryS3.client "   exit  " (MemoryS3.world false))).
  vm_compute. reflexivity.
Defined.

Lemma main_round_prints_witness :
  out (snd (main_round MemoryS3.client "upload  a.jpg   photos" (MemoryS3.world true)))
  = [exn_str (MemoryS3.denied "PutObject")].
Proof.
  rewrite main_round_prints; [vm_compute; reflexivity | discriminate | discriminate].
Defined.

Lemma main_round_blank_line_witness :
  out (snd (main_round MemoryS3.client "   " (MemoryS3.world false)))
  = ["Command not recognized."].
Proof.
  rewrite main_round_blank_line; [reflexivity | reflexivity].
Defined.
